(** * Sky Flight: flight dynamics, camera and illumination core

    A shallow embedding of [js/earth.js] (coordinate system and day/night
    model), of the Aircraft module (flight dynamics), of the Camera module
    (view state machine, transitions, pose), of the Controls module (input)
    and of the flight branch of the animation loop, followed by the
    properties of the specification that were checked against them and by
    further properties read off the code.

    Numbers.  A JavaScript number is modelled as a real number: the
    arithmetic of the source is read over [R], without rounding, overflow,
    NaN or signed zeros.  The operators that JavaScript defines by cases
    ([%], [Math.atan2], [Math.max]/[Math.min]) are written out below. *)

From Stdlib Require Import Reals Lra Lia ZArith String List Bool.
Import ListNotations.

Open Scope string_scope.
Open Scope list_scope.
Open Scope R_scope.

(** ** JavaScript arithmetic *)

Module JS.

(** The comparisons [<=], [<] and [===] on numbers, as booleans. *)
Definition leb (a b : R) : bool := if Rle_dec a b then true else false.
Definition ltb (a b : R) : bool := if Rlt_dec a b then true else false.
Definition eqb (a b : R) : bool := if Req_dec_T a b then true else false.

(** Truncation toward zero, the integer quotient that [%] uses. *)
Definition trunc (a : R) : Z :=
  if leb 0 a then Int_part a else (- Int_part (- a))%Z.

(** [a % b]: the remainder has the sign of the dividend. *)
Definition rem (a b : R) : R := a - b * IZR (trunc (a / b)).

(** [Math.max] and [Math.min] are [Rmax] and [Rmin]. *)

(** [Math.atan2(y, x)], the angle of the point [(x, y)] in (-PI, PI]. *)
Definition atan2 (y x : R) : R :=
  if ltb 0 x then atan (y / x)
  else if ltb x 0 then
    (if leb 0 y then atan (y / x) + PI else atan (y / x) - PI)
  else if ltb 0 y then PI / 2
  else if ltb y 0 then - (PI / 2)
  else 0.

(** An object literal used as a table, by its own keys in source order, and
    the property access [o[key]] on it. *)
Fixpoint get {A : Type} (key : string) (o : list (string * A)) : option A :=
  match o with
  | [] => None
  | (k, v) :: rest => if String.eqb key k then Some v else get key rest
  end.



(** [array.includes(v)] on an array of strings. *)
Definition includes (l : list string) (v : string) : bool :=
  existsb (String.eqb v) l.

(** Errors a call can raise. *)
Inductive error := TypeError (what : string).

(** The outcome of a call that mutates an object and may throw half way:
    the object as the call left it, and how the call ended. *)
Inductive completion := Normal | Throw (e : error).

End JS.

(** ** The parts of three.js the modules use

    three.js is an external library; its functions are written here as its
    documentation and source define them. *)

Module MathUtils.

Definition clamp (value lo hi : R) : R := Rmax lo (Rmin hi value).

Definition lerp (a b t : R) : R := (1 - t) * a + t * b.

Definition degToRad (degrees : R) : R := degrees * (PI / 180).

End MathUtils.

Module Vector3.

Record t := new { x : R; y : R; z : R }.

Definition zero : t := new 0 0 0.

Definition add (a b : t) : t := new (x a + x b) (y a + y b) (z a + z b).

Definition sub (a b : t) : t := new (x a - x b) (y a - y b) (z a - z b).

Definition multiplyScalar (a : t) (s : R) : t :=
  new (x a * s) (y a * s) (z a * s).

Definition lengthSq (a : t) : R := x a * x a + y a * y a + z a * z a.

Definition length (a : t) : R := sqrt (lengthSq a).

(** [normalize] divides by [length() || 1]: the zero vector stays as it is. *)
Definition normalize (a : t) : t :=
  let l := length a in
  let d := if JS.eqb l 0 then 1 else l in
  new (x a / d) (y a / d) (z a / d).

Definition cross (a b : t) : t :=
  new (y a * z b - z a * y b) (z a * x b - x a * z b) (x a * y b - y a * x b).

(** [a.lerp(b, alpha)] *)
Definition lerp (a b : t) (alpha : R) : t :=
  new (x a + (x b - x a) * alpha)
      (y a + (y b - y a) * alpha)
      (z a + (z b - z a) * alpha).

(** [a.distanceTo(b)] *)
Definition distanceTo (a b : t) : R := length (sub a b).

End Vector3.

(** A rotation, kept as the 3x3 matrix whose columns are the images of the
    axes.  The source stores rotations as quaternions built from such
    matrices ([setFromRotationMatrix]) and only ever applies them to vectors
    ([applyQuaternion]); both representations act on vectors alike. *)
Module Rotation.

Record t := fromBasis { cx : Vector3.t; cy : Vector3.t; cz : Vector3.t }.

Definition identity : t :=
  fromBasis (Vector3.new 1 0 0) (Vector3.new 0 1 0) (Vector3.new 0 0 1).

Definition apply (m : t) (v : Vector3.t) : Vector3.t :=
  Vector3.add
    (Vector3.add (Vector3.multiplyScalar (cx m) (Vector3.x v))
                 (Vector3.multiplyScalar (cy m) (Vector3.y v)))
    (Vector3.multiplyScalar (cz m) (Vector3.z v)).

(** [Matrix4.lookAt(eye, target, up)], with its two fallbacks for a zero
    view direction and for an up vector parallel to it. *)
Definition lookAt (eye target up : Vector3.t) : t :=
  let z0 := Vector3.sub eye target in
  let z1 :=
    if JS.eqb (Vector3.lengthSq z0) 0
    then Vector3.new (Vector3.x z0) (Vector3.y z0) 1 else z0 in
  let z2 := Vector3.normalize z1 in
  let x0 := Vector3.cross up z2 in
  let '(z3, x1) :=
    if JS.eqb (Vector3.lengthSq x0) 0 then
      let z' :=
        if JS.eqb (Rabs (Vector3.z up)) 1
        then Vector3.new (Vector3.x z2 + 0.0001) (Vector3.y z2) (Vector3.z z2)
        else Vector3.new (Vector3.x z2) (Vector3.y z2) (Vector3.z z2 + 0.0001) in
      let z'' := Vector3.normalize z' in
      (z'', Vector3.cross up z'')
    else (z2, x0) in
  let x2 := Vector3.normalize x1 in
  fromBasis x2 (Vector3.cross z3 x2) z3.

End Rotation.

Module Euler.

Inductive order := XYZ | YXZ.

Record t := new { x : R; y : R; z : R; ord : order }.

(** [Matrix4.makeRotationFromEuler], for the two orders that occur. *)
Definition toRotation (e : t) : Rotation.t :=
  let a := cos (x e) in let b := sin (x e) in
  let c := cos (y e) in let d := sin (y e) in
  let e' := cos (z e) in let f := sin (z e) in
  match ord e with
  | XYZ =>
      Rotation.fromBasis
        (Vector3.new (c * e') (a * f + b * d * e') (b * f - a * d * e'))
        (Vector3.new (- (c * f)) (a * e' - b * d * f) (b * e' + a * d * f))
        (Vector3.new d (- (b * c)) (a * c))
  | YXZ =>
      Rotation.fromBasis
        (Vector3.new (c * e' + d * f * b) (a * f) (c * f * b - d * e'))
        (Vector3.new (d * e' * b - c * f) (a * e') (d * f + c * e' * b))
        (Vector3.new (a * d) (- b) (a * c))
  end.

(** [v.applyEuler(e)] *)
Definition applyTo (e : t) (v : Vector3.t) : Vector3.t :=
  Rotation.apply (toRotation e) v.

End Euler.

(** ** js/earth.js *)

Module Earth.

Definition radius : R := 6371.
Definition sceneRadius : R := 100.

(** The night-lights mesh: only its material's opacity is ever written. *)
Record Mesh := mkMesh { opacity : R }.

(** [nightLights] stays [null] when the night texture failed to load. *)
Record t := mk { nightLights : option Mesh }.

Record LatLon := mkLatLon { lat : R; lon : R; altitude : R }.

(** [getLocalHour(longitude)]; [utcHours] is what the function reads from
    the clock, [getUTCHours() + getUTCMinutes() / 60]. *)
Definition getLocalHour (utcHours longitude : R) : R :=
  JS.rem (utcHours + longitude / 15 + 24) 24.

(** The target that [updateDayNight] computes into [nightOpacity]. *)
Definition nightOpacity (mode : string) (localHour : R) : R :=
  if String.eqb mode "night" then 1
  else if String.eqb mode "day" then 0
  else
    if JS.leb 6 localHour && JS.leb localHour 7
    then 1 - (localHour - 6)
    else if JS.leb 18 localHour && JS.leb localHour 19
    then localHour - 18
    else if JS.ltb 7 localHour && JS.ltb localHour 18
    then 0
    else 1.

Definition updateDayNight (utcHours : R) (position : LatLon) (mode : string)
    (e : t) : t :=
  match nightLights e with
  | None => e
  | Some m =>
      let target := nightOpacity mode (getLocalHour utcHours (lon position)) in
      let currentOpacity := opacity m in
      mk (Some (mkMesh (opacity m + (target - currentOpacity) * 0.02)))
  end.

(** One call per frame: the clock reading, the position and the mode of
    each frame, in order. *)
Fixpoint frames (ticks : list (R * LatLon * string)) (e : t) : t :=
  match ticks with
  | [] => e
  | (utcHours, position, mode) :: rest =>
      frames rest (updateDayNight utcHours position mode e)
  end.

(** The target a frame's call computes. *)
Definition frameTarget (tick : R * LatLon * string) : R :=
  let '(utcHours, position, mode) := tick in
  nightOpacity mode (getLocalHour utcHours (lon position)).

Definition latLonToVector3 (lat lon altitude : R) : Vector3.t :=
  let phi := (90 - lat) * (PI / 180) in
  let theta := (lon + 180) * (PI / 180) in
  let radius := sceneRadius + altitude in
  Vector3.new (- radius * sin phi * cos theta)
              (radius * cos phi)
              (radius * sin phi * sin theta).

Definition vector3ToLatLon (position : Vector3.t) : LatLon :=
  let radius := Vector3.length position in
  let altitude := radius - sceneRadius in
  let lat := 90 - acos (Vector3.y position / radius) * (180 / PI) in
  let lon :=
    JS.rem (JS.atan2 (Vector3.z position) (- Vector3.x position) * (180 / PI)
            - 180 + 360) 360 - 180 in
  mkLatLon lat lon altitude.

End Earth.

(** ** The Aircraft module (flight dynamics) *)

Module Aircraft.

(** An entry of [types].  The emoji and the two colours only reach the
    mesh materials and are left out. *)
Module Spec.
Record t := mk {
  name : string;
  speed : R;
  maxSpeed : R;
  minSpeed : R;
  handling : R;
  scale : R
}.
End Spec.

Definition cessna : Spec.t := Spec.mk "cessna" 300 400 100 1.0 0.3.
Definition airliner : Spec.t := Spec.mk "airliner" 850 1000 300 0.7 0.5.
Definition jet : Spec.t := Spec.mk "jet" 1500 2000 500 1.5 0.35.

(** The [types] object, by its own keys. *)
Definition types : list (string * Spec.t) :=
  [("cessna", cessna); ("airliner", airliner); ("jet", jet)].

(** An airport record as the airport data supplies it. *)
Record Airport := mkAirport { icao : string; lat : R; lon : R }.

(** The flight state record. *)
Module State.
Record t := mk {
  position : Vector3.t;
  velocity : Vector3.t;
  rotation : Euler.t;
  speed : R;
  altitude : R;
  heading : R;
  pitch : R;
  roll : R;
  isFlying : bool;
  takeoffAirport : option Airport;
  destinationAirport : option Airport;
  flightStartTime : option R
}.
End State.

(** The control inputs. *)
Module Input.
Record t := mk { pitch : R; roll : R; yaw : R; throttle : R }.
End Input.

(** The scene objects the module owns: the group that carries position
    and orientation, and the mesh with its local rotation. *)
Module Group.
Record t := mk { position : Vector3.t; quaternion : Rotation.t }.
End Group.

Module Mesh.
Record t := mk { rotation : Euler.t; scale : R }.
End Mesh.

(** The module object.  [warnings] collects what it passed to
    [console.warn]. *)
Record t := mk {
  mesh : option Mesh.t;
  group : option Group.t;
  currentType : option Spec.t;
  state : State.t;
  input : Input.t;
  warnings : list string
}.

Definition initial : t :=
  mk None None None
     (State.mk Vector3.zero Vector3.zero (Euler.new 0 0 0 Euler.XYZ)
               0 10 0 0 0 false None None None)
     (Input.mk 0 0 0 0)
     [].

Definition set_state (a : t) (s : State.t) : t :=
  mk (mesh a) (group a) (currentType a) s (input a) (warnings a).

(** [createAircraftMesh(type)]: the geometry is not modelled, the scale
    comes from the spec of [type]. *)
Definition createAircraftMesh (spec : Spec.t) : Mesh.t :=
  Mesh.mk (Euler.new 0 0 0 Euler.XYZ) (Spec.scale spec).

(** [setType(type)].  With a key inherited from [Object.prototype],
    [this.types[type]] is the inherited member, which is no spec; the
    function is modelled for all other keys, those with [JS.inherited] false. *)
Definition setType (type : string) (a : t) : t * JS.completion :=
  let '(type, warned) :=
    match JS.get type types with
    | Some _ => (type, warnings a)
    | None => ("cessna",
               warnings a ++ [String.append "Unknown aircraft type: " type])
    end in
  match JS.get type types with
  | None => (mk (mesh a) (group a) None (state a) (input a) warned,
             JS.Throw (JS.TypeError "this.currentType.speed"))
  | Some spec =>
      let s := state a in
      let s' :=
        State.mk (State.position s) (State.velocity s) (State.rotation s)
                 (Spec.speed spec) (State.altitude s) (State.heading s)
                 (State.pitch s) (State.roll s) (State.isFlying s)
                 (State.takeoffAirport s) (State.destinationAirport s)
                 (State.flightStartTime s) in
      let newMesh := createAircraftMesh spec in
      match group a with
      | None =>
          (mk (match mesh a with Some _ => mesh a | None => Some newMesh end)
              None (Some spec) s' (input a) warned,
           JS.Throw (JS.TypeError "this.group"))
      | Some g => (mk (Some newMesh) (Some g) (Some spec) s' (input a) warned,
                   JS.Normal)
      end
  end.

(** [init(scene, type)] *)
Definition init (type : string) (a : t) : t * JS.completion :=
  setType type
    (mk (mesh a) (Some (Group.mk Vector3.zero Rotation.identity))
        (currentType a) (state a) (input a) (warnings a)).

(** [setInput(input)]; a channel left [undefined] is [None]. *)
Definition setInput (pitch roll yaw throttle : option R) (a : t) : t :=
  let i := input a in
  let pick (v : option R) (old : R) :=
    match v with Some r => MathUtils.clamp r (-1) 1 | None => old end in
  mk (mesh a) (group a) (currentType a) (state a)
     (Input.mk (pick pitch (Input.pitch i)) (pick roll (Input.roll i))
               (pick yaw (Input.yaw i)) (pick throttle (Input.throttle i)))
     (warnings a).

(** [takeoff(airport)]; [now] is what [Date.now()] returns. *)
Definition takeoff (now : R) (airport : Airport) (a : t) : t * JS.completion :=
  let position := Earth.latLonToVector3 (lat airport) (lon airport) 2 in
  let s := state a in
  match currentType a with
  | None =>
      (set_state a
         (State.mk position (State.velocity s) (State.rotation s)
                   (State.speed s) 2 0 0 0 (State.isFlying s)
                   (State.takeoffAirport s) (State.destinationAirport s)
                   (State.flightStartTime s)),
       JS.Throw (JS.TypeError "this.currentType.speed"))
  | Some spec =>
      let s' :=
        State.mk position (State.velocity s) (State.rotation s)
                 (Spec.speed spec) 2 0 0 0 true
                 (Some airport) (State.destinationAirport s) (Some now) in
      match group a with
      | None => (set_state a s', JS.Throw (JS.TypeError "this.group.position"))
      | Some g =>
          (mk (mesh a) (Some (Group.mk position (Group.quaternion g)))
              (currentType a) s' (input a) (warnings a),
           JS.Normal)
      end
  end.

(** [update(deltaTime)] *)
Definition update (deltaTime : R) (a : t) : t * JS.completion :=
  let s := state a in
  let i := input a in
  if negb (State.isFlying s) then (a, JS.Normal) else
  match mesh a with
  | None => (a, JS.Normal)
  | Some m =>
  match currentType a with
  | None => (a, JS.Throw (JS.TypeError "spec.handling"))
  | Some spec =>
      let handling := Spec.handling spec in
      (* Apply control inputs to rotation *)
      let pitch1 := State.pitch s + Input.pitch i * handling * 60 * deltaTime in
      let roll1 := State.roll s + Input.roll i * handling * 60 * deltaTime in
      let heading1 := State.heading s + Input.yaw i * handling * 30 * deltaTime in
      (* Bank affects heading *)
      let heading2 := heading1 + roll1 * 0.5 * deltaTime in
      (* Apply throttle to speed *)
      let targetSpeed := State.speed s + Input.throttle i * 200 in
      let speed1 :=
        MathUtils.clamp (State.speed s + (targetSpeed - State.speed s) * deltaTime)
                        (Spec.minSpeed spec) (Spec.maxSpeed spec) in
      (* Clamp angles *)
      let pitch2 := MathUtils.clamp pitch1 (-80) 80 in
      let roll2 := MathUtils.clamp roll1 (-60) 60 in
      let heading3 := JS.rem (heading2 + 360) 360 in
      (* Auto-stabilize when no input *)
      let pitch3 := if JS.eqb (Input.pitch i) 0 then pitch2 * 0.98 else pitch2 in
      let roll3 := if JS.eqb (Input.roll i) 0 then roll2 * 0.98 else roll2 in
      (* Calculate velocity based on heading and pitch *)
      let speedInUnits := speed1 / 3600 * deltaTime in
      let scaledSpeed := speedInUnits * 0.01 in
      let pitchRad := MathUtils.degToRad pitch3 in
      let headingRad := MathUtils.degToRad heading3 in
      let rollRad := MathUtils.degToRad roll3 in
      let forward :=
        Euler.applyTo (Euler.new pitchRad headingRad rollRad Euler.YXZ)
                      (Vector3.new 1 0 0) in
      (* Move aircraft *)
      let velocity := Vector3.multiplyScalar forward scaledSpeed in
      let position1 := Vector3.add (State.position s) velocity in
      (* Keep aircraft above Earth surface *)
      let distFromCenter := Vector3.length position1 in
      let minAltitude := Earth.sceneRadius + 0.5 in
      let maxAltitude := Earth.sceneRadius + 50 in
      let '(position2, altitude1) :=
        if JS.ltb distFromCenter minAltitude then
          (Vector3.multiplyScalar (Vector3.normalize position1) minAltitude, 0.5)
        else if JS.ltb maxAltitude distFromCenter then
          (Vector3.multiplyScalar (Vector3.normalize position1) maxAltitude, 50)
        else (position1, distFromCenter - Earth.sceneRadius) in
      let s' :=
        State.mk position2 velocity (State.rotation s) speed1 altitude1
                 heading3 pitch3 roll3 (State.isFlying s)
                 (State.takeoffAirport s) (State.destinationAirport s)
                 (State.flightStartTime s) in
      match group a with
      | None => (set_state a s', JS.Throw (JS.TypeError "this.group.position"))
      | Some g =>
          (* Orient aircraft to Earth surface *)
          let up := Vector3.normalize position2 in
          let lookAt := Vector3.add position2 velocity in
          let matrix := Rotation.lookAt position2 lookAt up in
          let localRotation := Euler.new (- pitchRad) 0 (- rollRad) Euler.YXZ in
          (mk (Some (Mesh.mk localRotation (Mesh.scale m)))
              (Some (Group.mk position2 matrix))
              (currentType a) s' (input a) (warnings a),
           JS.Normal)
      end
  end
  end.

(** [getPosition()] *)
Definition getPosition (a : t) : Earth.LatLon :=
  Earth.vector3ToLatLon (State.position (state a)).

(** [stabilize()] *)
Definition stabilize (a : t) : t :=
  let s := state a in
  set_state a
    (State.mk (State.position s) (State.velocity s) (State.rotation s)
              (State.speed s) (State.altitude s) (State.heading s)
              (State.pitch s * 0.9) (State.roll s * 0.9) (State.isFlying s)
              (State.takeoffAirport s) (State.destinationAirport s)
              (State.flightStartTime s)).

(** [setDestination(airport)] *)
Definition setDestination (airport : Airport) (a : t) : t :=
  let s := state a in
  set_state a
    (State.mk (State.position s) (State.velocity s) (State.rotation s)
              (State.speed s) (State.altitude s) (State.heading s)
              (State.pitch s) (State.roll s) (State.isFlying s)
              (State.takeoffAirport s) (Some airport)
              (State.flightStartTime s)).

(** [getDistanceToDestination()], in km; [None] is the [null] returned
    when no destination is set. *)
Definition getDistanceToDestination (a : t) : option R :=
  match State.destinationAirport (state a) with
  | None => None
  | Some destination =>
      let destPos := Earth.latLonToVector3 (lat destination) (lon destination) 0 in
      let distance := Vector3.distanceTo (State.position (state a)) destPos in
      Some (distance * (Earth.radius / Earth.sceneRadius))
  end.

(** The calls the other modules make on the Aircraft object once it is
    initialised: from the aircraft dialog, the controls, the airport panel
    and the animation loop. *)
Inductive call :=
| SetType (type : string)
| SetInput (pitch roll yaw throttle : option R)
| Stabilize
| Takeoff (now : R) (airport : Airport)
| SetDestination (airport : Airport)
| Update (deltaTime : R).

Definition perform (c : call) (a : t) : t * JS.completion :=
  match c with
  | SetType type => setType type a
  | SetInput pitch roll yaw throttle =>
      (setInput pitch roll yaw throttle a, JS.Normal)
  | Stabilize => (stabilize a, JS.Normal)
  | Takeoff now airport => takeoff now airport a
  | SetDestination airport => (setDestination airport a, JS.Normal)
  | Update deltaTime => update deltaTime a
  end.

(** A series of calls, each made by its own event handler or frame: a call
    that throws leaves the object as it left it and the next one goes on. *)
Fixpoint run (calls : list call) (a : t) : t :=
  match calls with
  | [] => a
  | c :: rest => run rest (fst (perform c a))
  end.




(** Every key of the Aircraft object literal. *)
Definition members : list string :=
  ["mesh"; "group"; "types"; "currentType"; "state"; "input"; "init";
   "setType"; "createAircraftMesh"; "update"; "setInput"; "stabilize";
   "takeoff"; "setDestination"; "getDistanceToDestination"; "getFlightTime";
   "getPosition"; "getGroup"; "getState"; "getCurrentType"].

(** What [Aircraft.getFlightPhase] evaluates to: the object literal has
    no such key, nothing in the sources adds one, so it is [undefined]. *)
Definition getFlightPhase : option (t -> string) := None.

End Aircraft.

(** ** The Camera module *)

Module Camera.

(** The three parameters of a view, also the shape of [state]. *)
Record Params := mkParams { distance : R; height : R; fov : R }.

Definition views : list string := ["thirdPerson"; "cockpit"; "overhead"].

Definition viewSettings : list (string * Params) :=
  [("thirdPerson", mkParams 5 2 60);
   ("cockpit", mkParams 0 0.2 90);
   ("overhead", mkParams 20 15 45)].

Record Transition := mkTransition {
  active : bool;
  progress : R;
  from : option Params;
  to : option Params;
  duration : R
}.

Record Shake := mkShake { intensity : R; time : R }.

(** The [THREE.PerspectiveCamera] the module drives. *)
Module PerspectiveCamera.
Record t := mk {
  fov : R;
  position : Vector3.t;
  up : Vector3.t;
  quaternion : Rotation.t
}.
End PerspectiveCamera.

(** The module object.  [dispatched] collects the views announced to
    [window] by [viewChanged] events. *)
Record t := mk {
  camera : option PerspectiveCamera.t;
  currentView : string;
  transition : Transition;
  state : Params;
  shake : Shake;
  baseFOV : R;
  currentFOV : R;
  dispatched : list string
}.

Definition initial : t :=
  mk None "thirdPerson" (mkTransition false 0 None None 0.5)
     (mkParams 5 2 60) (mkShake 0 0) 60 60 [].

(** Writes to single fields of the camera. *)
Definition set_fov (v : R) (cam : PerspectiveCamera.t) : PerspectiveCamera.t :=
  PerspectiveCamera.mk v (PerspectiveCamera.position cam)
    (PerspectiveCamera.up cam) (PerspectiveCamera.quaternion cam).

Definition set_position (p : Vector3.t) (cam : PerspectiveCamera.t)
    : PerspectiveCamera.t :=
  PerspectiveCamera.mk (PerspectiveCamera.fov cam) p
    (PerspectiveCamera.up cam) (PerspectiveCamera.quaternion cam).

Definition set_up (u : Vector3.t) (cam : PerspectiveCamera.t)
    : PerspectiveCamera.t :=
  PerspectiveCamera.mk (PerspectiveCamera.fov cam)
    (PerspectiveCamera.position cam) u (PerspectiveCamera.quaternion cam).

(** [this.camera.lookAt(target)]: a camera looks from its position to the
    target, with its current up vector. *)
Definition lookAt (target : Vector3.t) (cam : PerspectiveCamera.t)
    : PerspectiveCamera.t :=
  PerspectiveCamera.mk (PerspectiveCamera.fov cam)
    (PerspectiveCamera.position cam) (PerspectiveCamera.up cam)
    (Rotation.lookAt (PerspectiveCamera.position cam) target
                     (PerspectiveCamera.up cam)).

(** [setView(view, animate)] *)
Definition setView (view : string) (animate : bool) (c : t) : t * JS.completion :=
  if negb (JS.includes views view) then (c, JS.Normal) else
  match JS.get view viewSettings with
  | None => (c, JS.Normal)
  | Some target =>
      if animate && negb (String.eqb (currentView c) view) then
        let tr := transition c in
        (mk (camera c) view
            (mkTransition true 0 (Some (state c)) (Some target) (duration tr))
            (state c) (shake c) (baseFOV c) (currentFOV c) (dispatched c),
         JS.Normal)
      else
        match camera c with
        | None =>
            (mk None (currentView c) (transition c) target (shake c)
                (baseFOV c) (currentFOV c) (dispatched c),
             JS.Throw (JS.TypeError "this.camera.fov"))
        | Some cam =>
            (mk (Some (set_fov (fov target) cam))
                view (transition c) target (shake c)
                (baseFOV c) (currentFOV c) (dispatched c),
             JS.Normal)
        end
  end.

(** [init(camera)] *)
Definition init (cam : PerspectiveCamera.t) (c : t) : t * JS.completion :=
  setView "thirdPerson" false
    (mk (Some cam) (currentView c) (transition c) (state c) (shake c)
        (baseFOV c) (currentFOV c) (dispatched c)).

(** [views.indexOf(view)], as the index or [-1]. *)
Fixpoint indexOf (l : list string) (v : string) : Z :=
  match l with
  | [] => (-1)%Z
  | w :: rest =>
      if String.eqb w v then 0%Z
      else let i := indexOf rest v in
           if (i <? 0)%Z then (-1)%Z else (i + 1)%Z
  end.

(** [nextView()] *)
Definition nextView (c : t) : t * JS.completion :=
  let currentIndex := indexOf views (currentView c) in
  let nextIndex := Z.rem (currentIndex + 1) (Z.of_nat (List.length views)) in
  let view := nth (Z.to_nat nextIndex) views "" in
  match setView view true c with
  | (c', JS.Normal) =>
      (mk (camera c') (currentView c') (transition c') (state c') (shake c')
          (baseFOV c') (currentFOV c') (dispatched c' ++ [view]),
       JS.Normal)
  | thrown => thrown
  end.

(** [easeInOutCubic(t)] *)
Definition easeInOutCubic (t : R) : R :=
  if JS.ltb t 0.5 then 4 * t * t * t else 1 - (-2 * t + 2) ^ 3 / 2.

(** The last part of [update]: the pose for the current view.  It returns
    the camera, or [None] where the source dereferences a null mesh.
    Every vector the source changes in place here is a new vector, a clone,
    or the camera's own position or up vector; those of the aircraft are only
    read, so they are passed by value. *)
Definition pose (aircraft : Aircraft.t) (g : Aircraft.Group.t) (view : string)
    (st : Params) (sh : Shake) (cam : PerspectiveCamera.t)
    : option PerspectiveCamera.t :=
  let aircraftPos := Aircraft.Group.position g in
  let up := Vector3.normalize aircraftPos in
  if String.eqb view "cockpit" then
    let cockpitOffset :=
      Rotation.apply (Aircraft.Group.quaternion g) (Vector3.new 0.5 0.2 0) in
    let cam1 := set_position (Vector3.add aircraftPos cockpitOffset) cam in
    match Aircraft.mesh aircraft with
    | None => None
    | Some m =>
        let forward :=
          Euler.applyTo (Aircraft.Mesh.rotation m)
            (Rotation.apply (Aircraft.Group.quaternion g) (Vector3.new 1 0 0)) in
        let lookAtPos :=
          Vector3.add (PerspectiveCamera.position cam1)
                      (Vector3.multiplyScalar forward 10) in
        Some (set_up up (lookAt lookAtPos cam1))
    end
  else if String.eqb view "thirdPerson" then
    let backward :=
      Rotation.apply (Aircraft.Group.quaternion g) (Vector3.new (-1) 0 0) in
    let upOffset := Vector3.multiplyScalar up (height st) in
    (* multiplyScalar works in place: backward and backOffset are one vector *)
    let backOffset := Vector3.multiplyScalar backward (distance st) in
    let targetPos := Vector3.add (Vector3.add aircraftPos upOffset) backOffset in
    let p1 := Vector3.lerp (PerspectiveCamera.position cam) targetPos 0.03 in
    let p2 :=
      if JS.ltb 0.001 (intensity sh) then
        let shakeX := sin (time sh) * intensity sh in
        let shakeY := cos (time sh * 1.3) * intensity sh in
        let right := Vector3.normalize (Vector3.cross up backOffset) in
        Vector3.add (Vector3.add p1 (Vector3.multiplyScalar up shakeY))
                    (Vector3.multiplyScalar right shakeX)
      else p1 in
    Some (set_up up (lookAt aircraftPos (set_position p2 cam)))
  else if String.eqb view "overhead" then
    let upOffset := Vector3.multiplyScalar up (height st) in
    let backOffset :=
      Vector3.multiplyScalar
        (Rotation.apply (Aircraft.Group.quaternion g) (Vector3.new (-1) 0 0))
        (distance st * 0.5) in
    let targetPos := Vector3.add (Vector3.add aircraftPos upOffset) backOffset in
    let p1 := Vector3.lerp (PerspectiveCamera.position cam) targetPos 0.03 in
    Some (set_up up (lookAt aircraftPos (set_position p1 cam)))
  else Some cam.

(** The transition block of [update], run when [transition.active]:
    the transition after the step and the interpolated parameters, which
    are [None] where the null [from] or [to] is dereferenced. *)
Definition advance (deltaTime : R) (tr : Transition)
    : Transition * option Params :=
  let progress1 := progress tr + deltaTime / duration tr in
  let tr1 :=
    if JS.leb 1 progress1
    then mkTransition false 1 (from tr) (to tr) (duration tr)
    else mkTransition (active tr) progress1 (from tr) (to tr) (duration tr) in
  let t := easeInOutCubic (progress tr1) in
  (tr1,
   match from tr, to tr with
   | Some f, Some g =>
       Some (mkParams (MathUtils.lerp (distance f) (distance g) t)
                      (MathUtils.lerp (height f) (height g) t)
                      (MathUtils.lerp (fov f) (fov g) t))
   | _, _ => None
   end).

(** [update(aircraft, deltaTime)], for an [aircraft] argument whose
    [getFlightPhase] member is the given method or is undefined. *)
Definition updateWith (getFlightPhase : option (Aircraft.t -> string))
    (aircraft : Aircraft.t) (deltaTime : R) (c : t) : t * JS.completion :=
  if negb (Aircraft.State.isFlying (Aircraft.state aircraft)) then (c, JS.Normal) else
  match Aircraft.group aircraft with
  | None => (c, JS.Normal)
  | Some g =>
  (* Handle transition animation *)
  let step1 :=
    if active (transition c) then
      match advance deltaTime (transition c) with
      | (tr1, Some st1) => inl (tr1, st1, fov st1)
      | (tr1, None) => inr tr1
      end
    else inl (transition c, state c, baseFOV c) in
  match step1 with
  | inr tr1 =>
      (mk (camera c) (currentView c) tr1 (state c) (shake c)
          (baseFOV c) (currentFOV c) (dispatched c),
       JS.Throw (JS.TypeError "this.transition.from.distance"))
  | inl (tr1, st1, base1) =>
  (* Speed-based FOV effect *)
  match Aircraft.currentType aircraft with
  | None =>
      (mk (camera c) (currentView c) tr1 st1 (shake c) base1 (currentFOV c)
          (dispatched c),
       JS.Throw (JS.TypeError "aircraft.currentType.maxSpeed"))
  | Some spec =>
  let speedRatio :=
    Aircraft.State.speed (Aircraft.state aircraft) / Aircraft.Spec.maxSpeed spec in
  let targetFOV := base1 + speedRatio * 15 in
  let currentFOV1 := MathUtils.lerp (currentFOV c) targetFOV 0.05 in
  match camera c with
  | None =>
      (mk None (currentView c) tr1 st1 (shake c) base1 currentFOV1 (dispatched c),
       JS.Throw (JS.TypeError "this.camera.fov"))
  | Some cam =>
  let cam1 := set_fov currentFOV1 cam in
  (* Camera shake during takeoff phases *)
  match getFlightPhase with
  | None =>
      (mk (Some cam1) (currentView c) tr1 st1 (shake c) base1 currentFOV1
          (dispatched c),
       JS.Throw (JS.TypeError "aircraft.getFlightPhase is not a function"))
  | Some method =>
  let flightPhase := method aircraft in
  let intensity1 :=
    if String.eqb flightPhase "takeoff_roll" || String.eqb flightPhase "climbing"
    then 0.05
    else if String.eqb flightPhase "taxiing" then 0.02
    else MathUtils.lerp (intensity (shake c)) 0 0.05 in
  let sh1 := mkShake intensity1 (time (shake c) + deltaTime * 20) in
  match pose aircraft g (currentView c) st1 sh1 cam1 with
  | None =>
      (mk (Some (set_position
                   (Vector3.add (Aircraft.Group.position g)
                      (Rotation.apply (Aircraft.Group.quaternion g)
                         (Vector3.new 0.5 0.2 0))) cam1))
          (currentView c) tr1 st1 sh1 base1 currentFOV1 (dispatched c),
       JS.Throw (JS.TypeError "aircraft.mesh.rotation"))
  | Some cam2 =>
      (mk (Some cam2) (currentView c) tr1 st1 sh1 base1 currentFOV1
          (dispatched c),
       JS.Normal)
  end end end end end end.

(** One call per frame, with the aircraft and the tick duration of each
    frame.  A frame whose call throws leaves the camera as the call left
    it, and the loop goes on with the next frame. *)
Fixpoint frames (getFlightPhase : option (Aircraft.t -> string))
    (ticks : list (Aircraft.t * R)) (c : t) : t :=
  match ticks with
  | [] => c
  | (aircraft, deltaTime) :: rest =>
      frames getFlightPhase rest
             (fst (updateWith getFlightPhase aircraft deltaTime c))
  end.



(** The calls made on the Camera object once it is initialised: by the
    airport panel, the view key and the animation loop. *)
Inductive call :=
| SetView (view : string) (animate : bool)
| NextView
| Update (aircraft : Aircraft.t) (deltaTime : R).

Definition perform (getFlightPhase : option (Aircraft.t -> string))
    (cl : call) (c : t) : t * JS.completion :=
  match cl with
  | SetView view animate => setView view animate c
  | NextView => nextView c
  | Update aircraft deltaTime => updateWith getFlightPhase aircraft deltaTime c
  end.

(** A series of calls; one that throws leaves the object as it left it. *)
Fixpoint run (getFlightPhase : option (Aircraft.t -> string))
    (calls : list call) (c : t) : t :=
  match calls with
  | [] => c
  | cl :: rest => run getFlightPhase rest (fst (perform getFlightPhase cl c))
  end.

(** Tick durations are not negative. *)
Definition forward (cl : call) : Prop :=
  match cl with
  | Update _ deltaTime => 0 <= deltaTime
  | _ => True
  end.

(** The shape the Camera object keeps: a camera to drive, a current view
    of the view list, a progress between 0 and 1, a positive duration, and
    both ends of the transition while it is active. *)
Definition wellFormed (c : t) : Prop :=
  camera c <> None
  /\ In (currentView c) views
  /\ 0 <= progress (transition c) <= 1
  /\ 0 < duration (transition c)
  /\ (active (transition c) = true ->
      from (transition c) <> None /\ to (transition c) <> None).

(** The call of the animation loop, [Camera.update(Aircraft, deltaTime)]. *)
Definition update (aircraft : Aircraft.t) (deltaTime : R) (c : t)
    : t * JS.completion :=
  updateWith Aircraft.getFlightPhase aircraft deltaTime c.

End Camera.

(** ** The Controls module (keyboard, touch and gyroscope input)

    The module keeps the control output that the animation loop hands to
    [Aircraft.setInput].  Styling of the joystick knob and the creation of
    the buttons are presentation and are left out; the handlers are modelled
    by what they do to the module object. *)

Module Controls.

Record Gyro := mkGyro { alpha : R; beta : R; gamma : R }.

Record Joystick := mkJoystick {
  active : bool;
  startX : R;
  startY : R;
  currentX : R;
  currentY : R
}.

(** Which of the three callbacks have been registered. *)
Record Callbacks := mkCallbacks {
  onViewChange : bool;
  onMenuOpen : bool;
  onStabilize : bool
}.

Record t := mk {
  keys : list (string * bool);
  gyro : Gyro;
  joystick : Joystick;
  output : Aircraft.Input.t;
  callbacks : Callbacks
}.

Definition initial : t :=
  mk [] (mkGyro 0 0 0) (mkJoystick false 0 0 0 0)
     (Aircraft.Input.mk 0 0 0 0) (mkCallbacks false false false).

(** [this.keys[code]] read as a condition: an absent key is [undefined]. *)
Definition pressed (code : string) (c : t) : bool :=
  match JS.get code (keys c) with
  | Some b => b
  | None => false
  end.

Definition set_output (o : Aircraft.Input.t) (c : t) : t :=
  mk (keys c) (gyro c) (joystick c) o (callbacks c).

(** The callback a handler invokes, if it is registered. *)
Inductive callback := ViewChange | MenuOpen | StabilizeRequest.

(** The [keydown] handler: the module after it and the callback it calls. *)
Definition keydown (code : string) (c : t) : t * option callback :=
  let c' := mk ((code, true) :: keys c) (gyro c) (joystick c) (output c)
               (callbacks c) in
  (c',
   if String.eqb code "KeyV" then
     (if onViewChange (callbacks c) then Some ViewChange else None)
   else if String.eqb code "KeyM" then
     (if onMenuOpen (callbacks c) then Some MenuOpen else None)
   else if String.eqb code "Space" then
     (if onStabilize (callbacks c) then Some StabilizeRequest else None)
   else None).

(** The [keyup] handler. *)
Definition keyup (code : string) (c : t) : t :=
  mk ((code, false) :: keys c) (gyro c) (joystick c) (output c) (callbacks c).

(** The [blur] handler. *)
Definition blur (c : t) : t :=
  mk [] (gyro c) (joystick c) (output c) (callbacks c).

(** [updateJoystickPosition()] *)
Definition updateJoystickPosition (c : t) : t :=
  let maxDistance := 40 in
  let j := joystick c in
  let dx := currentX j - startX j in
  let dy := currentY j - startY j in
  let distance := sqrt (dx * dx + dy * dy) in
  let '(dx, dy) :=
    if JS.ltb maxDistance distance
    then (dx / distance * maxDistance, dy / distance * maxDistance)
    else (dx, dy) in
  let o := output c in
  set_output
    (Aircraft.Input.mk (dy / maxDistance) (dx / maxDistance)
                       (Aircraft.Input.yaw o) (Aircraft.Input.throttle o))
    c.

(** [handleJoystickStart(e)]: the bounding rectangle of the joystick
    element and the first touch of the event. *)
Definition handleJoystickStart (rectLeft rectTop rectWidth rectHeight
    clientX clientY : R) (c : t) : t :=
  updateJoystickPosition
    (mk (keys c) (gyro c)
        (mkJoystick true (rectLeft + rectWidth / 2) (rectTop + rectHeight / 2)
                    clientX clientY)
        (output c) (callbacks c)).

(** [handleJoystickMove(e)] *)
Definition handleJoystickMove (clientX clientY : R) (c : t) : t :=
  if negb (active (joystick c)) then c
  else
    let j := joystick c in
    updateJoystickPosition
      (mk (keys c) (gyro c)
          (mkJoystick (active j) (startX j) (startY j) clientX clientY)
          (output c) (callbacks c)).

(** [handleJoystickEnd(e)] *)
Definition handleJoystickEnd (c : t) : t :=
  let j := joystick c in
  let o := output c in
  mk (keys c) (gyro c)
     (mkJoystick false (startX j) (startY j) (currentX j) (currentY j))
     (Aircraft.Input.mk 0 0 (Aircraft.Input.yaw o) (Aircraft.Input.throttle o))
     (callbacks c).

(** The touch handlers of the speed buttons write the throttle. *)
Definition setThrottle (v : R) (c : t) : t :=
  let o := output c in
  set_output
    (Aircraft.Input.mk (Aircraft.Input.pitch o) (Aircraft.Input.roll o)
                       (Aircraft.Input.yaw o) v)
    c.

(** The [deviceorientation] handler; [e.alpha || 0] and the like turn a
    missing reading into 0. *)
Definition deviceorientation (a b g : option R) (c : t) : t :=
  let value (v : option R) := match v with Some r => r | None => 0 end in
  mk (keys c) (mkGyro (value a) (value b) (value g)) (joystick c) (output c)
     (callbacks c).

(** [update()]; [isMobile] is what [Settings.isMobile()] answers and
    [controlMode] what [Settings.get('controlMode')] returns. *)
Definition update (isMobile : bool) (controlMode : string) (c : t) : t :=
  if negb isMobile then
    let pitch1 :=
      if pressed "KeyW" c || pressed "ArrowUp" c then 1 else 0 in
    let pitch2 :=
      if pressed "KeyS" c || pressed "ArrowDown" c then -1 else pitch1 in
    let roll1 :=
      if pressed "KeyA" c || pressed "ArrowLeft" c then -1 else 0 in
    let roll2 :=
      if pressed "KeyD" c || pressed "ArrowRight" c then 1 else roll1 in
    let yaw1 := if pressed "KeyQ" c then -1 else 0 in
    let yaw2 := if pressed "KeyE" c then 1 else yaw1 in
    let throttle1 :=
      if pressed "ShiftLeft" c || pressed "ShiftRight" c then 1 else 0 in
    let throttle2 :=
      if pressed "ControlLeft" c || pressed "ControlRight" c
      then -1 else throttle1 in
    set_output (Aircraft.Input.mk pitch2 roll2 yaw2 throttle2) c
  else if String.eqb controlMode "gyroscope" then
    let o := output c in
    set_output
      (Aircraft.Input.mk (MathUtils.clamp (beta (gyro c) / 30) (-1) 1)
                         (MathUtils.clamp (gamma (gyro c) / 30) (-1) 1)
                         (Aircraft.Input.yaw o) (Aircraft.Input.throttle o))
      c
  else c.

(** What can happen to the module between two frames. *)
Inductive event :=
| KeyDown (code : string)
| KeyUp (code : string)
| Blur
| JoystickStart (rectLeft rectTop rectWidth rectHeight clientX clientY : R)
| JoystickMove (clientX clientY : R)
| JoystickEnd
| AccelStart
| DecelStart
| SpeedButtonEnd
| DeviceOrientation (a b g : option R)
| Frame (isMobile : bool) (controlMode : string).

Definition handle (e : event) (c : t) : t :=
  match e with
  | KeyDown code => fst (keydown code c)
  | KeyUp code => keyup code c
  | Blur => blur c
  | JoystickStart rectLeft rectTop rectWidth rectHeight clientX clientY =>
      handleJoystickStart rectLeft rectTop rectWidth rectHeight clientX clientY c
  | JoystickMove clientX clientY => handleJoystickMove clientX clientY c
  | JoystickEnd => handleJoystickEnd c
  | AccelStart => setThrottle 1 c
  | DecelStart => setThrottle (-1) c
  | SpeedButtonEnd => setThrottle 0 c
  | DeviceOrientation a b g => deviceorientation a b g c
  | Frame isMobile controlMode => update isMobile controlMode c
  end.

Fixpoint run (events : list event) (c : t) : t :=
  match events with
  | [] => c
  | e :: rest => run rest (handle e c)
  end.

(** Every channel of a control output between -1 and 1. *)
Definition normalised (o : Aircraft.Input.t) : Prop :=
  -1 <= Aircraft.Input.pitch o <= 1
  /\ -1 <= Aircraft.Input.roll o <= 1
  /\ -1 <= Aircraft.Input.yaw o <= 1
  /\ -1 <= Aircraft.Input.throttle o <= 1.

End Controls.

(** ** The flight branch of the animation loop (js/main.js)

    The three modules are global objects; the world holds them together.
    Each step below is the corresponding call as the loop makes it. *)

Module World.

Record t := mk { aircraft : Aircraft.t; camera : Camera.t; earth : Earth.t }.

(** [Aircraft.setInput(input)] with the four channels [Controls.update()]
    returns. *)
Definition setInput (i : Aircraft.Input.t) (w : t) : t :=
  mk (Aircraft.setInput (Some (Aircraft.Input.pitch i)) (Some (Aircraft.Input.roll i))
                        (Some (Aircraft.Input.yaw i)) (Some (Aircraft.Input.throttle i))
                        (aircraft w))
     (camera w) (earth w).

(** [Aircraft.update(deltaTime)] *)
Definition aircraftUpdate (deltaTime : R) (w : t) : t * JS.completion :=
  let '(a, r) := Aircraft.update deltaTime (aircraft w) in
  (mk a (camera w) (earth w), r).

(** [Camera.update(Aircraft, deltaTime)] *)
Definition cameraUpdate (deltaTime : R) (w : t) : t * JS.completion :=
  let '(c, r) := Camera.update (aircraft w) deltaTime (camera w) in
  (mk (aircraft w) c (earth w), r).

(** [Earth.updateDayNight(Aircraft.getPosition(), dayNightMode)] *)
Definition updateDayNight (utcHours : R) (mode : string) (w : t) : t :=
  mk (aircraft w) (camera w)
     (Earth.updateDayNight utcHours (Aircraft.getPosition (aircraft w)) mode
                           (earth w)).

(** The body of [if (this.isFlying)] in [animate], up to the HUD update:
    a call that throws ends the frame. *)
Definition flightFrame (i : Aircraft.Input.t) (deltaTime utcHours : R)
    (mode : string) (w : t) : t * JS.completion :=
  match aircraftUpdate deltaTime (setInput i w) with
  | (w1, JS.Normal) =>
      match cameraUpdate deltaTime w1 with
      | (w2, JS.Normal) => (updateDayNight utcHours mode w2, JS.Normal)
      | thrown => thrown
      end
  | thrown => thrown
  end.

End World.

(** ** Concrete situations

    The module objects as the program builds them, used to run the
    functions on explicit inputs. *)

Module Scenario.

(** An airport on the equator at the prime meridian. *)
Definition origin : Aircraft.Airport := Aircraft.mkAirport "ORIG" 0 0.

(** The Aircraft module after [Aircraft.init(scene)]. *)
Definition parked : Aircraft.t := fst (Aircraft.init "cessna" Aircraft.initial).

(** ... and after [Aircraft.takeoff(origin)], the clock reading 0. *)
Definition airborne : Aircraft.t := fst (Aircraft.takeoff 0 origin parked).

(** Full left rudder, the other channels as they are (zero). *)
Definition hardLeft : Aircraft.t :=
  Aircraft.setInput None None (Some (-1)) None airborne.


(** A perspective camera at the exploration position. *)
Definition lens : Camera.PerspectiveCamera.t :=
  Camera.PerspectiveCamera.mk 60 (Vector3.new 200 100 200) (Vector3.new 0 1 0)
                  Rotation.identity.

(** The Camera module after [Camera.init(camera)]. *)
Definition studio : Camera.t := fst (Camera.init lens Camera.initial).

(** ... and after [Camera.setView("cockpit", true)]. *)
Definition switching : Camera.t := fst (Camera.setView "cockpit" true studio).

End Scenario.

(** * Properties *)

(** ** Arithmetic helpers *)

Module JSFacts.

Lemma leb_true a b : a <= b -> JS.leb a b = true.
Proof. intros H; unfold JS.leb; destruct (Rle_dec a b); [reflexivity | contradiction]. Qed.

Lemma leb_false a b : b < a -> JS.leb a b = false.
Proof. intros H; unfold JS.leb; destruct (Rle_dec a b); [lra | reflexivity]. Qed.

Lemma ltb_true a b : a < b -> JS.ltb a b = true.
Proof. intros H; unfold JS.ltb; destruct (Rlt_dec a b); [reflexivity | contradiction]. Qed.

Lemma ltb_false a b : b <= a -> JS.ltb a b = false.
Proof. intros H; unfold JS.ltb; destruct (Rlt_dec a b); [lra | reflexivity]. Qed.

Lemma eqb_true a b : a = b -> JS.eqb a b = true.
Proof. intros H; unfold JS.eqb; destruct (Req_dec_T a b); [reflexivity | contradiction]. Qed.

Lemma eqb_false a b : a <> b -> JS.eqb a b = false.
Proof. intros H; unfold JS.eqb; destruct (Req_dec_T a b); [contradiction | reflexivity]. Qed.

(** The integer part of a non-negative quotient. *)
Lemma trunc_nonneg a k : 0 <= a -> IZR k <= a < IZR k + 1 -> JS.trunc a = k.
Proof.
  intros Ha Hk. unfold JS.trunc. rewrite leb_true by assumption.
  symmetry. apply Int_part_spec. lra.
Qed.

(** The integer part of a negative quotient rounds up, toward zero. *)
Lemma trunc_neg a k : a < 0 -> IZR k - 1 < a <= IZR k -> JS.trunc a = k.
Proof.
  intros Ha Hk. unfold JS.trunc. rewrite leb_false by assumption.
  assert (E : (- k)%Z = Int_part (- a)).
  { apply Int_part_spec. rewrite opp_IZR. lra. }
  rewrite <- E. lia.
Qed.

(** [a % b] for a non-negative dividend: subtract the whole multiples. *)
Lemma rem_nonneg a b k :
  0 < b -> 0 <= a -> IZR k * b <= a < (IZR k + 1) * b ->
  JS.rem a b = a - b * IZR k.
Proof.
  intros Hb Ha Hk. unfold JS.rem. f_equal. f_equal. f_equal.
  apply trunc_nonneg.
  - apply Rmult_le_pos; [assumption | left; apply Rinv_0_lt_compat; assumption].
  - split.
    + apply Rmult_le_reg_r with b; [assumption |].
      unfold Rdiv. rewrite Rmult_assoc, Rinv_l by lra. lra.
    + apply Rmult_lt_reg_r with b; [assumption |].
      unfold Rdiv. rewrite Rmult_assoc, Rinv_l by lra. lra.
Qed.

(** [a % b] for a negative dividend: the result is not positive. *)
Lemma rem_neg a b k :
  0 < b -> a < 0 -> (IZR k - 1) * b < a <= IZR k * b ->
  JS.rem a b = a - b * IZR k.
Proof.
  intros Hb Ha Hk. unfold JS.rem. f_equal. f_equal. f_equal.
  apply trunc_neg.
  - unfold Rdiv. assert (0 < / b) by (apply Rinv_0_lt_compat; assumption). nra.
  - split.
    + apply Rmult_lt_reg_r with b; [assumption |].
      unfold Rdiv. rewrite Rmult_assoc, Rinv_l by lra. lra.
    + apply Rmult_le_reg_r with b; [assumption |].
      unfold Rdiv. rewrite Rmult_assoc, Rinv_l by lra. lra.
Qed.

Lemma rem_small a b : 0 <= a < b -> JS.rem a b = a.
Proof.
  intros H. rewrite (rem_nonneg a b 0); lra.
Qed.

End JSFacts.

(** ** Coordinate system *)

Module EarthFacts.

Lemma deg_quarter : 90 * (PI / 180) = PI / 2.
Proof. lra. Qed.

Lemma rad_quarter : PI / 2 * (180 / PI) = 90.
Proof. field. apply PI_neq0. Qed.

(** The forward transform at latitude 0, longitude -90, on the surface. *)
Lemma forward_west :
  Earth.latLonToVector3 0 (-90) 0 = Vector3.new 0 0 100.
Proof.
  unfold Earth.latLonToVector3, Earth.sceneRadius.
  replace ((90 - 0) * (PI / 180)) with (PI / 2) by lra.
  replace ((-90 + 180) * (PI / 180)) with (PI / 2) by lra.
  rewrite cos_PI2, sin_PI2. f_equal; lra.
Qed.

(** The reverse transform of that point. *)
Lemma reverse_west :
  Earth.vector3ToLatLon (Vector3.new 0 0 100) = Earth.mkLatLon 0 90 0.
Proof.
  unfold Earth.vector3ToLatLon, Vector3.length, Vector3.lengthSq, Earth.sceneRadius.
  cbn [Vector3.x Vector3.y Vector3.z].
  replace (0 * 0 + 0 * 0 + 100 * 100) with (100 * 100) by lra.
  rewrite sqrt_square by lra.
  replace (0 / 100) with 0 by lra. rewrite acos_0, rad_quarter.
  assert (A : JS.atan2 100 (- 0) = PI / 2).
  { unfold JS.atan2.
    rewrite (JSFacts.ltb_false 0 (- 0)) by lra.
    rewrite (JSFacts.ltb_false (- 0) 0) by lra.
    rewrite (JSFacts.ltb_true 0 100) by lra. reflexivity. }
  rewrite A, rad_quarter.
  replace (90 - 180 + 360) with 270 by lra.
  rewrite JSFacts.rem_small by lra.
  f_equal; lra.
Qed.

(** The quadrant of an angle in (-PI, PI], read off its sine and cosine. *)
Lemma cos_pos_quadrant theta :
  - PI < theta <= PI -> 0 < cos theta -> - (PI / 2) < theta < PI / 2.
Proof.
  intros [H1 H2] Hc. pose proof PI_RGT_0 as Hpi. split.
  - destruct (Rlt_dec (- (PI / 2)) theta) as [H | H]; [assumption | exfalso].
    assert (cos (- theta) <= 0) by (apply cos_le_0; lra).
    rewrite cos_neg in *. lra.
  - destruct (Rlt_dec theta (PI / 2)) as [H | H]; [assumption | exfalso].
    assert (cos theta <= 0) by (apply cos_le_0; lra). lra.
Qed.

Lemma cos_neg_sin_nonneg_quadrant theta :
  - PI < theta <= PI -> cos theta < 0 -> 0 <= sin theta -> PI / 2 < theta <= PI.
Proof.
  intros [H1 H2] Hc Hs. pose proof PI_RGT_0 as Hpi. split; [| assumption].
  destruct (Rlt_dec (PI / 2) theta) as [H | H]; [assumption | exfalso].
  destruct (Rlt_dec theta 0) as [Hneg | Hpos].
  - pose proof (sin_lt_0_var theta H1 Hneg). lra.
  - assert (0 <= cos theta) by (apply cos_ge_0; lra). lra.
Qed.

Lemma cos_neg_sin_neg_quadrant theta :
  - PI < theta <= PI -> cos theta < 0 -> sin theta < 0 -> - PI < theta < - (PI / 2).
Proof.
  intros [H1 H2] Hc Hs. pose proof PI_RGT_0 as Hpi. split; [assumption |].
  destruct (Rlt_dec theta (- (PI / 2))) as [H | H]; [assumption | exfalso].
  destruct (Rle_dec 0 theta) as [Hpos | Hneg].
  - assert (0 <= sin theta) by (apply sin_ge_0; lra). lra.
  - assert (0 <= cos theta) by (apply cos_ge_0; lra). lra.
Qed.

Lemma tan_shift theta : cos theta <> 0 -> tan (theta + PI) = tan theta.
Proof.
  intros Hc. unfold tan. rewrite neg_sin, neg_cos. field. assumption.
Qed.

Lemma ratio_tan rho theta :
  0 < rho -> cos theta <> 0 -> rho * sin theta / (rho * cos theta) = tan theta.
Proof. intros Hr Hc. unfold tan. field. split; lra. Qed.

(** [Math.atan2] gives back the angle of a point in polar form. *)
Lemma atan2_polar rho theta :
  0 < rho -> - PI < theta <= PI ->
  JS.atan2 (rho * sin theta) (rho * cos theta) = theta.
Proof.
  intros Hr Ht. pose proof PI_RGT_0 as Hpi. unfold JS.atan2.
  destruct (Rtotal_order 0 (cos theta)) as [Hc | [Hc | Hc]].
  - rewrite JSFacts.ltb_true by nra.
    rewrite ratio_tan by lra.
    apply atan_tan. apply cos_pos_quadrant; assumption.
  - rewrite <- Hc. rewrite Rmult_0_r.
    rewrite (JSFacts.ltb_false 0 0) by lra.
    destruct (Rtotal_order 0 (sin theta)) as [Hs | [Hs | Hs]].
    + rewrite JSFacts.ltb_true by nra.
      destruct (Rtotal_order theta (PI / 2)) as [H | [H | H]]; [exfalso | lra | exfalso].
      * destruct (Rlt_dec (- (PI / 2)) theta).
        -- assert (0 < cos theta) by (apply cos_gt_0; lra). lra.
        -- destruct (Req_dec theta (- (PI / 2))) as [E | E].
           ++ rewrite E, sin_neg, sin_PI2 in Hs. lra.
           ++ assert (cos (- theta) < 0) by (apply cos_lt_0; lra).
              rewrite cos_neg in *. lra.
      * assert (cos theta < 0) by (apply cos_lt_0; lra). lra.
    + exfalso. apply (cos_sin_0 theta). split; congruence.
    + rewrite JSFacts.ltb_false by nra. rewrite JSFacts.ltb_true by nra.
      destruct (Rtotal_order theta (- (PI / 2))) as [H | [H | H]]; [exfalso | lra | exfalso].
      * assert (cos (- theta) < 0) by (apply cos_lt_0; lra).
        rewrite cos_neg in *. lra.
      * destruct (Rlt_dec theta (PI / 2)).
        -- assert (0 < cos theta) by (apply cos_gt_0; lra). lra.
        -- destruct (Req_dec theta (PI / 2)) as [E | E].
           ++ rewrite E, sin_PI2 in Hs. lra.
           ++ assert (cos theta < 0) by (apply cos_lt_0; lra). lra.
  - rewrite JSFacts.ltb_false by nra. rewrite JSFacts.ltb_true by nra.
    rewrite ratio_tan by lra.
    destruct (Rle_dec 0 (sin theta)) as [Hs | Hs].
    + rewrite JSFacts.leb_true by nra.
      pose proof (cos_neg_sin_nonneg_quadrant theta Ht Hc Hs) as Hq.
      replace theta with (theta - PI + PI) at 1 by lra.
      rewrite tan_shift.
      * rewrite atan_tan by lra. lra.
      * replace (theta - PI) with (- (PI - theta)) by lra.
        rewrite cos_neg. replace (PI - theta) with (- theta + PI) by lra.
        rewrite neg_cos, cos_neg. lra.
    + apply Rnot_le_lt in Hs. rewrite JSFacts.leb_false by nra.
      pose proof (cos_neg_sin_neg_quadrant theta Ht Hc Hs) as Hq.
      rewrite <- (tan_shift theta) by lra.
      rewrite atan_tan by lra. lra.
Qed.

Lemma sphere_length r phi theta :
  0 <= r ->
  Vector3.length
    (Vector3.new (- r * sin phi * cos theta) (r * cos phi) (r * sin phi * sin theta))
  = r.
Proof.
  intros Hr. unfold Vector3.length, Vector3.lengthSq.
  cbn [Vector3.x Vector3.y Vector3.z].
  pose proof (sin2_cos2 phi) as Hp. pose proof (sin2_cos2 theta) as Ht.
  unfold Rsqr in Hp, Ht.
  replace (- r * sin phi * cos theta * (- r * sin phi * cos theta)
           + r * cos phi * (r * cos phi)
           + r * sin phi * sin theta * (r * sin phi * sin theta))
    with (r * r * (sin phi * sin phi * (sin theta * sin theta + cos theta * cos theta)
                   + cos phi * cos phi)) by ring.
  rewrite Ht, Rmult_1_r, Hp, Rmult_1_r.
  apply sqrt_square; assumption.
Qed.

(** What the round trip returns in general: latitude and altitude come back,
    the longitude comes back half a turn away. *)
Lemma roundtrip_general lat lon altitude :
  -90 < lat < 90 -> -180 < lon <= 180 -> 0 <= altitude ->
  Earth.vector3ToLatLon (Earth.latLonToVector3 lat lon altitude)
  = Earth.mkLatLon lat (if JS.ltb lon 0 then lon + 180 else lon - 180) altitude.
Proof.
  intros Hlat Hlon Halt. pose proof PI_RGT_0 as Hpi.
  unfold Earth.latLonToVector3, Earth.vector3ToLatLon, Earth.sceneRadius.
  set (phi := (90 - lat) * (PI / 180)).
  set (theta := (lon + 180) * (PI / 180)).
  set (r := 100 + altitude).
  assert (Hr : 0 < r) by (unfold r; lra).
  assert (Hphi : 0 < phi < PI) by (unfold phi; split; nra).
  assert (Htheta : 0 < theta <= 2 * PI) by (unfold theta; split; nra).
  assert (Hsin : 0 < sin phi) by (apply sin_gt_0; lra).
  rewrite sphere_length by lra.
  cbn [Vector3.x Vector3.y Vector3.z].
  replace (r * cos phi / r) with (cos phi) by (field; lra).
  rewrite acos_cos by lra.
  replace (- (- r * sin phi * cos theta)) with (r * sin phi * cos theta) by ring.
  assert (Hrho : 0 < r * sin phi) by nra.
  assert (Hlat' : 90 - phi * (180 / PI) = lat) by (unfold phi; field; lra).
  assert (Halt' : r - 100 = altitude) by (unfold r; lra).
  rewrite Hlat', Halt'. f_equal.
  destruct (Rle_dec theta PI) as [Hsmall | Hbig].
  - rewrite atan2_polar by lra.
    assert (Hdeg : theta * (180 / PI) = lon + 180) by (unfold theta; field; lra).
    assert (Hlon0 : lon <= 0) by (unfold theta in Hsmall; nra).
    rewrite Hdeg.
    destruct (Rlt_dec lon 0) as [Hneg | Hzero].
    + rewrite JSFacts.ltb_true by assumption.
      rewrite JSFacts.rem_small by lra. lra.
    + rewrite JSFacts.ltb_false by lra.
      rewrite (JSFacts.rem_nonneg _ 360 1) by lra. lra.
  - apply Rnot_le_lt in Hbig.
    assert (Hs : sin theta = sin (theta - 2 * PI)).
    { rewrite <- (sin_period (theta - 2 * PI) 1). f_equal. cbn [INR]. lra. }
    assert (Hc : cos theta = cos (theta - 2 * PI)).
    { rewrite <- (cos_period (theta - 2 * PI) 1). f_equal. cbn [INR]. lra. }
    rewrite Hs, Hc, atan2_polar by lra.
    assert (Hdeg : (theta - 2 * PI) * (180 / PI) = lon - 180)
      by (unfold theta; field; lra).
    assert (Hlon0 : 0 < lon) by (unfold theta in Hbig; nra).
    rewrite Hdeg, JSFacts.ltb_false by lra.
    rewrite JSFacts.rem_small by lra. lra.
Qed.

End EarthFacts.

(** C1.  The round trip through the two transforms does not give back the
    longitude: the point of latitude 0, longitude -90 and altitude 0 comes
    back with latitude 0 and altitude 0 but longitude +90, half a turn
    away. *)
Theorem roundtrip_longitude_half_turn_off :
  Earth.vector3ToLatLon (Earth.latLonToVector3 0 (-90) 0)
  = Earth.mkLatLon 0 90 0.
Proof.
  rewrite EarthFacts.forward_west. apply EarthFacts.reverse_west.
Qed.

(** ** Illumination *)

Module DayNightFacts.

Lemma auto_branch mode h :
  mode <> "night" -> mode <> "day" ->
  Earth.nightOpacity mode h =
    if JS.leb 6 h && JS.leb h 7 then 1 - (h - 6)
    else if JS.leb 18 h && JS.leb h 19 then h - 18
    else if JS.ltb 7 h && JS.ltb h 18 then 0 else 1.
Proof.
  intros Hn Hd. unfold Earth.nightOpacity.
  apply String.eqb_neq in Hn. apply String.eqb_neq in Hd.
  rewrite Hn, Hd. reflexivity.
Qed.

Lemma auto_night mode h :
  mode <> "night" -> mode <> "day" -> h < 6 \/ 19 < h ->
  Earth.nightOpacity mode h = 1.
Proof.
  intros Hn Hd [H | H]; rewrite auto_branch by assumption.
  - rewrite (JSFacts.leb_false 6 h) by lra. cbn [andb].
    rewrite (JSFacts.leb_false 18 h) by lra. cbn [andb].
    rewrite (JSFacts.ltb_false 7 h) by lra. reflexivity.
  - rewrite (JSFacts.leb_false h 7) by lra. rewrite andb_false_r.
    rewrite (JSFacts.leb_false h 19) by lra. rewrite andb_false_r.
    rewrite (JSFacts.ltb_false h 18) by lra. rewrite andb_false_r. reflexivity.
Qed.

Lemma auto_day mode h :
  mode <> "night" -> mode <> "day" -> 7 < h < 18 ->
  Earth.nightOpacity mode h = 0.
Proof.
  intros Hn Hd H. rewrite auto_branch by assumption.
  rewrite (JSFacts.leb_false h 7) by lra. rewrite andb_false_r.
  rewrite (JSFacts.leb_false 18 h) by lra. cbn [andb].
  rewrite (JSFacts.ltb_true 7 h), (JSFacts.ltb_true h 18) by lra. reflexivity.
Qed.

Lemma auto_dawn mode h :
  mode <> "night" -> mode <> "day" -> 6 <= h <= 7 ->
  Earth.nightOpacity mode h = 1 - (h - 6).
Proof.
  intros Hn Hd H. rewrite auto_branch by assumption.
  rewrite (JSFacts.leb_true 6 h), (JSFacts.leb_true h 7) by lra. reflexivity.
Qed.

Lemma auto_dusk mode h :
  mode <> "night" -> mode <> "day" -> 18 <= h <= 19 ->
  Earth.nightOpacity mode h = h - 18.
Proof.
  intros Hn Hd H. rewrite auto_branch by assumption.
  rewrite (JSFacts.leb_false h 7) by lra. rewrite andb_false_r.
  rewrite (JSFacts.leb_true 18 h), (JSFacts.leb_true h 19) by lra. reflexivity.
Qed.

(** One call moves the opacity a fiftieth of the way to the target. *)
Lemma step utcHours position mode op :
  Earth.updateDayNight utcHours position mode (Earth.mk (Some (Earth.mkMesh op)))
  = Earth.mk (Some (Earth.mkMesh
      (op + (Earth.nightOpacity mode
               (Earth.getLocalHour utcHours (Earth.lon position)) - op) * 0.02))).
Proof. reflexivity. Qed.

(** Under a constant target the gap shrinks by the factor 0.98 per frame. *)
Lemma frames_closed_form T ticks : forall op,
  Forall (fun tick => Earth.frameTarget tick = T) ticks ->
  Earth.frames ticks (Earth.mk (Some (Earth.mkMesh op)))
  = Earth.mk (Some (Earth.mkMesh (T + (op - T) * 0.98 ^ List.length ticks))).
Proof.
  induction ticks as [| [[utcHours position] mode] rest IH]; intros op HT.
  - cbn. do 3 f_equal. lra.
  - apply Forall_cons_iff in HT as [Hhead Hrest].
    cbn [Earth.frames List.length]. rewrite step.
    unfold Earth.frameTarget in Hhead. rewrite Hhead.
    rewrite IH by assumption. do 3 f_equal. cbn [pow]. lra.
Qed.

Lemma gap_vanishes gap eps :
  0 < eps -> exists N, forall n, (N <= n)%nat -> Rabs (gap * 0.98 ^ n) < eps.
Proof.
  intros Heps.
  assert (Hpos : 0 < Rabs gap + 1) by (pose proof (Rabs_pos gap); lra).
  assert (Hy : 0 < eps / (Rabs gap + 1)) by (apply Rdiv_lt_0_compat; assumption).
  destruct (pow_lt_1_zero 0.98) with (y := eps / (Rabs gap + 1)) as [N HN].
  - rewrite Rabs_right; lra.
  - assumption.
  - exists N. intros n Hn. specialize (HN n Hn).
    rewrite Rabs_mult.
    apply Rle_lt_trans with ((Rabs gap + 1) * Rabs (0.98 ^ n)).
    + apply Rmult_le_compat_r; [apply Rabs_pos | lra].
    + apply Rmult_lt_reg_r with (/ (Rabs gap + 1)).
      * apply Rinv_0_lt_compat; assumption.
      * replace ((Rabs gap + 1) * Rabs (0.98 ^ n) * / (Rabs gap + 1))
          with (Rabs (0.98 ^ n)) by (field; lra).
        exact HN.
Qed.

End DayNightFacts.

(** C5.  The local solar hour is [(utcHours + longitude / 15 + 24) % 24].
    The target night opacity is 0 in mode "day" and 1 in mode "night" at
    every hour; in every other mode, "auto" among them, it is 1 before 6 and
    after 19, 0 strictly between 7 and 18, falls linearly from 1 to 0 over
    the dawn window [6,7] and rises linearly from 0 to 1 over the dusk window
    [18,19].  One call moves the stored opacity by 0.02 of its distance to the
    target, so the opacity never jumps onto the target; under a constant
    target the opacity after enough frames is as close to the target as one
    likes.  At local hour 12 the auto target is 0, at local hour 0 it is 1. *)
Theorem dayNight_target_and_approach :
  forall (utcHours : R) (position : Earth.LatLon) (mode : string) (op : R),
    let h := Earth.getLocalHour utcHours (Earth.lon position) in
    let T := Earth.nightOpacity mode h in
    h = JS.rem (utcHours + Earth.lon position / 15 + 24) 24
    /\ (mode = "day" -> T = 0)
    /\ (mode = "night" -> T = 1)
    /\ (mode <> "day" -> mode <> "night" ->
          ((h < 6 \/ 19 < h) -> T = 1)
          /\ (7 < h < 18 -> T = 0)
          /\ (6 <= h <= 7 -> T = 1 - (h - 6))
          /\ (18 <= h <= 19 -> T = h - 18))
    /\ Earth.updateDayNight utcHours position mode (Earth.mk (Some (Earth.mkMesh op)))
       = Earth.mk (Some (Earth.mkMesh (op + (T - op) * 0.02)))
    /\ (op + (T - op) * 0.02) - T = 0.98 * (op - T)
    /\ (forall eps, 0 < eps ->
          exists N, forall ticks, (N <= List.length ticks)%nat ->
            Forall (fun tick => Earth.frameTarget tick = T) ticks ->
            exists op',
              Earth.frames ticks (Earth.mk (Some (Earth.mkMesh op)))
              = Earth.mk (Some (Earth.mkMesh op'))
              /\ Rabs (op' - T) < eps)
    /\ Earth.nightOpacity "auto" 12 = 0
    /\ Earth.nightOpacity "auto" 0 = 1
    /\ Earth.nightOpacity "day" 0 = 0.
Proof.
  intros utcHours position mode op h T.
  split; [reflexivity |].
  split; [intros ->; reflexivity |].
  split; [intros ->; reflexivity |].
  split.
  { intros Hd Hn. unfold T. repeat split; intros H.
    - apply DayNightFacts.auto_night; assumption.
    - apply DayNightFacts.auto_day; assumption.
    - apply DayNightFacts.auto_dawn; assumption.
    - apply DayNightFacts.auto_dusk; assumption. }
  split; [apply DayNightFacts.step |].
  split; [lra |].
  split.
  { intros eps Heps.
    destruct (DayNightFacts.gap_vanishes (op - T) eps Heps) as [N HN].
    exists N. intros ticks Hlen HT.
    exists (T + (op - T) * 0.98 ^ List.length ticks). split.
    - apply DayNightFacts.frames_closed_form; assumption.
    - replace (T + (op - T) * 0.98 ^ List.length ticks - T)
        with ((op - T) * 0.98 ^ List.length ticks) by lra.
      apply HN; assumption. }
  split.
  { apply DayNightFacts.auto_day; [discriminate | discriminate | lra]. }
  split.
  { apply DayNightFacts.auto_night; [discriminate | discriminate | lra]. }
  reflexivity.
Qed.

Lemma dayNight_noon_witness :
  exists N, forall ticks, (N <= List.length ticks)%nat ->
    Forall (fun tick => Earth.frameTarget tick = 0) ticks ->
    exists op',
      Earth.frames ticks (Earth.mk (Some (Earth.mkMesh 1)))
      = Earth.mk (Some (Earth.mkMesh op'))
      /\ Rabs (op' - 0) < 1 / 100.
Proof.
  assert (Hnoon : Earth.nightOpacity "auto"
                    (Earth.getLocalHour 12 (Earth.lon (Earth.mkLatLon 0 0 2))) = 0).
  { unfold Earth.getLocalHour. cbn [Earth.lon].
    rewrite (JSFacts.rem_nonneg _ 24 1) by lra.
    apply DayNightFacts.auto_day; [discriminate | discriminate | lra]. }
  pose proof (dayNight_target_and_approach 12 (Earth.mkLatLon 0 0 2) "auto" 1) as H.
  cbv zeta in H. rewrite Hnoon in H.
  destruct H as (_ & _ & _ & _ & _ & _ & Hconv & _).
  apply Hconv. lra.
Defined.

(** ** Flight dynamics *)

Module AircraftFacts.

Import Aircraft.

Lemma clamp_range v lo hi :
  lo <= hi -> lo <= MathUtils.clamp v lo hi <= hi.
Proof.
  intros H. unfold MathUtils.clamp. split.
  - apply Rmax_l.
  - apply Rmax_lub; [assumption | apply Rmin_l].
Qed.

Lemma clamp_inside v lo hi : lo <= v <= hi -> MathUtils.clamp v lo hi = v.
Proof.
  intros [H1 H2]. unfold MathUtils.clamp.
  rewrite Rmin_right by assumption. apply Rmax_right; assumption.
Qed.

(** [a % b] lies strictly between [-b] and [b], on the side of [a]. *)
Lemma rem_range a b :
  0 < b ->
  (0 <= a -> 0 <= JS.rem a b < b) /\ (a < 0 -> - b < JS.rem a b <= 0).
Proof.
  intros Hb.
  assert (Hinv : 0 < / b) by (apply Rinv_0_lt_compat; assumption).
  assert (Hq : a = b * (a / b)) by (field; lra).
  unfold JS.rem, JS.trunc. split; intros Ha.
  - assert (0 <= a / b) by (unfold Rdiv; nra).
    rewrite JSFacts.leb_true by assumption.
    destruct (base_Int_part (a / b)) as [H1 H2].
    set (k := IZR (Int_part (a / b))) in *.
    split; nra.
  - assert (a / b < 0) by (unfold Rdiv; nra).
    rewrite JSFacts.leb_false by assumption.
    destruct (base_Int_part (- (a / b))) as [H1 H2].
    rewrite opp_IZR.
    set (k := IZR (Int_part (- (a / b)))) in *.
    split; nra.
Qed.

(** The state after a call made in flight, field by field. *)
Lemma update_state deltaTime a m spec :
  State.isFlying (state a) = true -> mesh a = Some m ->
  currentType a = Some spec ->
  let s := state a in
  let i := input a in
  let handling := Spec.handling spec in
  let roll1 := State.roll s + Input.roll i * handling * 60 * deltaTime in
  let heading2 :=
    State.heading s + Input.yaw i * handling * 30 * deltaTime
    + roll1 * 0.5 * deltaTime in
  let speed1 :=
    MathUtils.clamp
      (State.speed s + (State.speed s + Input.throttle i * 200 - State.speed s) * deltaTime)
      (Spec.minSpeed spec) (Spec.maxSpeed spec) in
  let pitch2 :=
    MathUtils.clamp (State.pitch s + Input.pitch i * handling * 60 * deltaTime) (-80) 80 in
  let roll2 := MathUtils.clamp roll1 (-60) 60 in
  let heading3 := JS.rem (heading2 + 360) 360 in
  let pitch3 := if JS.eqb (Input.pitch i) 0 then pitch2 * 0.98 else pitch2 in
  let roll3 := if JS.eqb (Input.roll i) 0 then roll2 * 0.98 else roll2 in
  let forward :=
    Euler.applyTo
      (Euler.new (MathUtils.degToRad pitch3) (MathUtils.degToRad heading3)
                 (MathUtils.degToRad roll3) Euler.YXZ)
      (Vector3.new 1 0 0) in
  let velocity := Vector3.multiplyScalar forward (speed1 / 3600 * deltaTime * 0.01) in
  let position1 := Vector3.add (State.position s) velocity in
  let dist := Vector3.length position1 in
  let s' := state (fst (update deltaTime a)) in
  State.pitch s' = pitch3
  /\ State.roll s' = roll3
  /\ State.heading s' = heading3
  /\ State.speed s' = speed1
  /\ State.velocity s' = velocity
  /\ State.altitude s' =
       (if JS.ltb dist (Earth.sceneRadius + 0.5) then 0.5
        else if JS.ltb (Earth.sceneRadius + 50) dist then 50
        else dist - Earth.sceneRadius)
  /\ State.position s' =
       (if JS.ltb dist (Earth.sceneRadius + 0.5)
        then Vector3.multiplyScalar (Vector3.normalize position1) (Earth.sceneRadius + 0.5)
        else if JS.ltb (Earth.sceneRadius + 50) dist
        then Vector3.multiplyScalar (Vector3.normalize position1) (Earth.sceneRadius + 50)
        else position1).
Proof.
  intros Hfly Hmesh Htype. cbv zeta.
  unfold update. rewrite Hfly, Hmesh, Htype. cbn [negb].
  repeat match goal with
         | |- context [JS.ltb ?a ?b] => destruct (JS.ltb a b)
         end;
    destruct (group a); cbn [fst state set_state State.pitch State.roll State.heading
      State.speed State.velocity State.altitude State.position];
    repeat split; reflexivity.
Qed.

(** What every call made in flight guarantees: all the ranges but the
    lower bound of the heading, which needs the heading before
    normalisation to be at least -360. *)
Lemma update_ranges deltaTime a m spec :
  State.isFlying (state a) = true -> mesh a = Some m ->
  currentType a = Some spec ->
  Spec.minSpeed spec <= Spec.maxSpeed spec ->
  let s := state a in
  let s' := state (fst (update deltaTime a)) in
  -80 <= State.pitch s' <= 80
  /\ -60 <= State.roll s' <= 60
  /\ -360 < State.heading s' < 360
  /\ Spec.minSpeed spec <= State.speed s' <= Spec.maxSpeed spec
  /\ 0.5 <= State.altitude s' <= 50
  /\ (-360 <= State.heading s
             + Input.yaw (input a) * Spec.handling spec * 30 * deltaTime
             + (State.roll s + Input.roll (input a) * Spec.handling spec * 60 * deltaTime)
               * 0.5 * deltaTime ->
      0 <= State.heading s' < 360).
Proof.
  intros Hfly Hmesh Htype Hspec. cbv zeta.
  destruct (update_state deltaTime a m spec Hfly Hmesh Htype)
    as (Hp & Hr & Hh & Hs & _ & Ha & _).
  rewrite Hp, Hr, Hh, Hs, Ha. clear Hp Hr Hh Hs Ha.
  repeat split.
  - match goal with |- context [MathUtils.clamp ?v (-80) 80] =>
      pose proof (clamp_range v (-80) 80 ltac:(lra)) end.
    match goal with |- context [JS.eqb ?u ?v] => destruct (JS.eqb u v) end; lra.
  - match goal with |- context [MathUtils.clamp ?v (-80) 80] =>
      pose proof (clamp_range v (-80) 80 ltac:(lra)) end.
    match goal with |- context [JS.eqb ?u ?v] => destruct (JS.eqb u v) end; lra.
  - match goal with |- context [MathUtils.clamp ?v (-60) 60] =>
      pose proof (clamp_range v (-60) 60 ltac:(lra)) end.
    match goal with |- context [JS.eqb ?u ?v] => destruct (JS.eqb u v) end; lra.
  - match goal with |- context [MathUtils.clamp ?v (-60) 60] =>
      pose proof (clamp_range v (-60) 60 ltac:(lra)) end.
    match goal with |- context [JS.eqb ?u ?v] => destruct (JS.eqb u v) end; lra.
  - match goal with |- context [JS.rem ?v 360] =>
      destruct (rem_range v 360 ltac:(lra)) as [Hpos Hneg];
      destruct (Rle_dec 0 v); [specialize (Hpos ltac:(lra)) | specialize (Hneg ltac:(lra))]
    end; lra.
  - match goal with |- context [JS.rem ?v 360] =>
      destruct (rem_range v 360 ltac:(lra)) as [Hpos Hneg];
      destruct (Rle_dec 0 v); [specialize (Hpos ltac:(lra)) | specialize (Hneg ltac:(lra))]
    end; lra.
  - apply clamp_range; assumption.
  - apply clamp_range; assumption.
  - unfold JS.ltb, Earth.sceneRadius.
    repeat match goal with |- context [Rlt_dec ?x ?y] => destruct (Rlt_dec x y) end; lra.
  - unfold JS.ltb, Earth.sceneRadius.
    repeat match goal with |- context [Rlt_dec ?x ?y] => destruct (Rlt_dec x y) end; lra.
  - match goal with |- context [JS.rem ?v 360] =>
      destruct (rem_range v 360 ltac:(lra)) as [Hpos _]; apply Hpos; lra end.
  - match goal with |- context [JS.rem ?v 360] =>
      destruct (rem_range v 360 ltac:(lra)) as [Hpos _]; apply Hpos; lra end.
Qed.

End AircraftFacts.

Module ScenarioFacts.

Import Aircraft.

Lemma parked_eq :
  Scenario.parked =
  mk (Some (Mesh.mk (Euler.new 0 0 0 Euler.XYZ) 0.3))
     (Some (Group.mk Vector3.zero Rotation.identity))
     (Some cessna)
     (State.mk Vector3.zero Vector3.zero (Euler.new 0 0 0 Euler.XYZ)
               300 10 0 0 0 false None None None)
     (Input.mk 0 0 0 0) [].
Proof. reflexivity. Qed.

Lemma airborne_eq :
  Scenario.airborne =
  mk (Some (Mesh.mk (Euler.new 0 0 0 Euler.XYZ) 0.3))
     (Some (Group.mk (Earth.latLonToVector3 0 0 2) Rotation.identity))
     (Some cessna)
     (State.mk (Earth.latLonToVector3 0 0 2) Vector3.zero
               (Euler.new 0 0 0 Euler.XYZ)
               300 2 0 0 0 true (Some Scenario.origin) None (Some 0))
     (Input.mk 0 0 0 0) [].
Proof. reflexivity. Qed.

Lemma hardLeft_eq :
  Scenario.hardLeft =
  mk (Some (Mesh.mk (Euler.new 0 0 0 Euler.XYZ) 0.3))
     (Some (Group.mk (Earth.latLonToVector3 0 0 2) Rotation.identity))
     (Some cessna)
     (State.mk (Earth.latLonToVector3 0 0 2) Vector3.zero
               (Euler.new 0 0 0 Euler.XYZ)
               300 2 0 0 0 true (Some Scenario.origin) None (Some 0))
     (Input.mk 0 0 (-1) 0) [].
Proof.
  unfold Scenario.hardLeft. rewrite airborne_eq. unfold setInput.
  cbn [mesh group currentType state input warnings
       Input.pitch Input.roll Input.yaw Input.throttle].
  rewrite AircraftFacts.clamp_inside by lra. reflexivity.
Qed.

(** The point above the equator at the prime meridian, two units up. *)
Lemma origin_position : Earth.latLonToVector3 0 0 2 = Vector3.new 102 0 0.
Proof.
  unfold Earth.latLonToVector3, Earth.sceneRadius.
  replace ((90 - 0) * (PI / 180)) with (PI / 2) by lra.
  replace ((0 + 180) * (PI / 180)) with PI by lra.
  rewrite cos_PI2, sin_PI2, cos_PI, sin_PI. f_equal; lra.
Qed.

End ScenarioFacts.

(** C2.  A tick with a large duration takes the heading out of [0, 360).
    The aircraft has just taken off (pitch 0, roll 0, heading 0, speed 300,
    altitude 2, all within their ranges) and the only input is full left
    rudder, yaw = -1.  After [update(13)] the heading is -30: the code adds
    360 once before taking the remainder, which keeps the sign of a sum that
    is still negative. *)
Theorem heading_leaves_range_under_large_dt :
  let a := Scenario.hardLeft in
  let s' := Aircraft.state (fst (Aircraft.update 13 a)) in
  Aircraft.State.heading (Aircraft.state a) = 0
  /\ Aircraft.input a = Aircraft.Input.mk 0 0 (-1) 0
  /\ Aircraft.State.heading s' = -30
  /\ ~ (0 <= Aircraft.State.heading s' < 360).
Proof.
  cbv zeta.
  assert (H : Aircraft.State.heading
                (Aircraft.state (fst (Aircraft.update 13 Scenario.hardLeft))) = -30).
  { destruct (AircraftFacts.update_state 13 Scenario.hardLeft
                (Aircraft.Mesh.mk (Euler.new 0 0 0 Euler.XYZ) 0.3) Aircraft.cessna)
      as (_ & _ & Hh & _);
      try (rewrite ScenarioFacts.hardLeft_eq; reflexivity).
    rewrite Hh. rewrite ScenarioFacts.hardLeft_eq.
    cbn [Aircraft.state Aircraft.input Aircraft.State.heading Aircraft.State.roll
         Aircraft.Input.yaw Aircraft.Input.roll Aircraft.Spec.handling Aircraft.cessna].
    rewrite (JSFacts.rem_neg _ 360 0) by lra. lra. }
  rewrite H. rewrite ScenarioFacts.hardLeft_eq.
  repeat split; try reflexivity. lra.
Qed.

(** C10.  While the aircraft is not flying, or has no mesh, [update] returns
    at once: the module object, state included, is left as it was, whatever
    the tick duration. *)
Theorem update_is_noop_when_not_flying :
  forall (deltaTime : R) (a : Aircraft.t),
    Aircraft.State.isFlying (Aircraft.state a) = false \/ Aircraft.mesh a = None ->
    Aircraft.update deltaTime a = (a, JS.Normal).
Proof.
  intros deltaTime a [H | H]; unfold Aircraft.update.
  - rewrite H. reflexivity.
  - rewrite H. destruct (Aircraft.State.isFlying (Aircraft.state a)); reflexivity.
Qed.

Lemma update_is_noop_when_not_flying_witness :
  Aircraft.update 1 Scenario.parked = (Scenario.parked, JS.Normal).
Proof.
  apply (update_is_noop_when_not_flying 1 Scenario.parked).
  left. reflexivity.
Defined.

Module ForwardFacts.

(** With all three angles zero the forward axis is not rotated. *)
Lemma level_forward :
  Euler.applyTo
    (Euler.new (MathUtils.degToRad 0) (MathUtils.degToRad 0)
               (MathUtils.degToRad 0) Euler.YXZ)
    (Vector3.new 1 0 0)
  = Vector3.new 1 0 0.
Proof.
  unfold MathUtils.degToRad. replace (0 * (PI / 180)) with 0 by lra.
  unfold Euler.applyTo, Euler.toRotation, Rotation.apply,
    Vector3.add, Vector3.multiplyScalar.
  cbn [Euler.x Euler.y Euler.z Euler.ord Rotation.cx Rotation.cy Rotation.cz
       Vector3.x Vector3.y Vector3.z].
  rewrite cos_0, sin_0. f_equal; lra.
Qed.

Lemma length_axis (c : R) : 0 <= c -> Vector3.length (Vector3.new c 0 0) = c.
Proof.
  intros H. unfold Vector3.length, Vector3.lengthSq.
  cbn [Vector3.x Vector3.y Vector3.z].
  replace (c * c + 0 * 0 + 0 * 0) with (c * c) by lra.
  apply sqrt_square; assumption.
Qed.

End ForwardFacts.

(** C7 (scenario A).  The aircraft is at latitude 0, longitude 0, altitude 2,
    with heading, pitch and roll 0, speed 300 km/h within the limits of its
    type, and no control input.  One call of [update] with a tick of one
    second moves the position by the forward unit vector of the initial
    attitude times [300 / 3600 * 1 * 0.01], and leaves the altitude between
    the floor 0.5 and the ceiling 50. *)
Theorem scenario_A_advances_along_forward :
  forall (a : Aircraft.t) (m : Aircraft.Mesh.t) (spec : Aircraft.Spec.t),
    Aircraft.mesh a = Some m ->
    Aircraft.currentType a = Some spec ->
    Aircraft.Spec.minSpeed spec <= 300 <= Aircraft.Spec.maxSpeed spec ->
    Aircraft.State.isFlying (Aircraft.state a) = true ->
    Aircraft.State.position (Aircraft.state a) = Earth.latLonToVector3 0 0 2 ->
    Aircraft.State.altitude (Aircraft.state a) = 2 ->
    Aircraft.State.heading (Aircraft.state a) = 0 ->
    Aircraft.State.pitch (Aircraft.state a) = 0 ->
    Aircraft.State.roll (Aircraft.state a) = 0 ->
    Aircraft.State.speed (Aircraft.state a) = 300 ->
    Aircraft.input a = Aircraft.Input.mk 0 0 0 0 ->
    let forward :=
      Euler.applyTo
        (Euler.new (MathUtils.degToRad 0) (MathUtils.degToRad 0)
                   (MathUtils.degToRad 0) Euler.YXZ)
        (Vector3.new 1 0 0) in
    let s' := Aircraft.state (fst (Aircraft.update 1 a)) in
    Vector3.length forward = 1
    /\ Aircraft.State.position s'
       = Vector3.add (Aircraft.State.position (Aircraft.state a))
                     (Vector3.multiplyScalar forward (300 / 3600 * 1 * 0.01))
    /\ 0.5 <= Aircraft.State.altitude s' <= 50.
Proof.
  intros a m spec Hmesh Htype Hspec Hfly Hpos Halt Hhead Hpitch Hroll Hspeed Hin.
  cbv zeta.
  destruct (AircraftFacts.update_state 1 a m spec Hfly Hmesh Htype)
    as (_ & _ & _ & _ & _ & Ha & Hp).
  rewrite Ha, Hp. clear Ha Hp.
  rewrite Hpos, Hhead, Hpitch, Hroll, Hspeed, Hin.
  cbn [Aircraft.Input.pitch Aircraft.Input.roll Aircraft.Input.yaw
       Aircraft.Input.throttle].
  rewrite (JSFacts.eqb_true 0 0) by reflexivity.
  replace (0 + 0 * Aircraft.Spec.handling spec * 60 * 1) with 0 by lra.
  replace (0 + 0 * Aircraft.Spec.handling spec * 30 * 1 + 0 * 0.5 * 1 + 360)
    with 360 by lra.
  rewrite (JSFacts.rem_nonneg 360 360 1) by lra.
  replace (360 - 360 * 1) with 0 by lra.
  replace (300 + (300 + 0 * 200 - 300) * 1) with 300 by lra.
  rewrite !AircraftFacts.clamp_inside by lra.
  replace (0 * 0.98) with 0 by lra.
  rewrite ForwardFacts.level_forward, ScenarioFacts.origin_position.
  assert (Hlen : Vector3.length
            (Vector3.add (Vector3.new 102 0 0)
               (Vector3.multiplyScalar (Vector3.new 1 0 0) (300 / 3600 * 1 * 0.01)))
          = 102 + 1 / 1200).
  { unfold Vector3.add, Vector3.multiplyScalar.
    cbn [Vector3.x Vector3.y Vector3.z].
    replace (102 + 1 * (300 / 3600 * 1 * 0.01)) with (102 + 1 / 1200) by lra.
    replace (0 + 0 * (300 / 3600 * 1 * 0.01)) with 0 by lra.
    apply ForwardFacts.length_axis. lra. }
  rewrite Hlen. unfold Earth.sceneRadius.
  rewrite (JSFacts.ltb_false (102 + 1 / 1200) (100 + 0.5)) by lra.
  rewrite (JSFacts.ltb_false (100 + 50) (102 + 1 / 1200)) by lra.
  split; [apply ForwardFacts.length_axis; lra |].
  split; [reflexivity | lra].
Qed.

Lemma scenario_A_witness :
  Aircraft.State.position (Aircraft.state (fst (Aircraft.update 1 Scenario.airborne)))
  = Vector3.add (Aircraft.State.position (Aircraft.state Scenario.airborne))
      (Vector3.multiplyScalar
         (Euler.applyTo
            (Euler.new (MathUtils.degToRad 0) (MathUtils.degToRad 0)
                       (MathUtils.degToRad 0) Euler.YXZ)
            (Vector3.new 1 0 0))
         (300 / 3600 * 1 * 0.01)).
Proof.
  apply (scenario_A_advances_along_forward Scenario.airborne
           (Aircraft.Mesh.mk (Euler.new 0 0 0 Euler.XYZ) 0.3) Aircraft.cessna);
    try reflexivity.
  cbn [Aircraft.Spec.minSpeed Aircraft.Spec.maxSpeed Aircraft.cessna]. lra.
Defined.

(** ** Aircraft type selection *)




(** ** Camera *)

Module CameraFacts.

Import Camera.

(** What a call made in flight does to the transition and to the
    interpolated parameters, whatever happens later in the call. *)
Lemma updateWith_transition method aircraft g deltaTime c :
  Aircraft.State.isFlying (Aircraft.state aircraft) = true ->
  Aircraft.group aircraft = Some g ->
  let c' := fst (updateWith method aircraft deltaTime c) in
  transition c' =
    (if active (transition c) then fst (advance deltaTime (transition c))
     else transition c)
  /\ state c' =
    (if active (transition c) then
       match snd (advance deltaTime (transition c)) with
       | Some st => st
       | None => state c
       end
     else state c).
Proof.
  intros Hfly Hgroup. cbv zeta. unfold updateWith.
  rewrite Hfly, Hgroup. cbn [negb].
  destruct (active (transition c)).
  - destruct (advance deltaTime (transition c)) as [tr1 [st1 |]]; cbn [fst snd].
    + destruct (Aircraft.currentType aircraft); [| split; reflexivity].
      destruct (camera c); [| split; reflexivity].
      destruct method; [| split; reflexivity].
      destruct (pose _ _ _ _ _ _); split; reflexivity.
    + split; reflexivity.
  - destruct (Aircraft.currentType aircraft); [| split; reflexivity].
    destruct (camera c); [| split; reflexivity].
    destruct method; [| split; reflexivity].
    destruct (pose _ _ _ _ _ _); split; reflexivity.
Qed.

(** The shake a call made in flight leaves behind when the aircraft
    object does provide [getFlightPhase]. *)
Lemma updateWith_shake method aircraft g spec cam deltaTime c :
  Aircraft.State.isFlying (Aircraft.state aircraft) = true ->
  Aircraft.group aircraft = Some g ->
  Aircraft.currentType aircraft = Some spec ->
  camera c = Some cam ->
  (active (transition c) = true ->
   from (transition c) <> None /\ to (transition c) <> None) ->
  let phase := method aircraft in
  shake (fst (updateWith (Some method) aircraft deltaTime c))
  = mkShake
      (if String.eqb phase "takeoff_roll" || String.eqb phase "climbing"
       then 0.05
       else if String.eqb phase "taxiing" then 0.02
       else MathUtils.lerp (intensity (shake c)) 0 0.05)
      (time (shake c) + deltaTime * 20).
Proof.
  intros Hfly Hgroup Htype Hcam Hwf. cbv zeta. unfold updateWith.
  rewrite Hfly, Hgroup, Htype, Hcam. cbn [negb].
  destruct (active (transition c)).
  - destruct (Hwf eq_refl) as [Hf Ht]. unfold advance.
    destruct (from (transition c)); [| contradiction].
    destruct (to (transition c)); [| contradiction].
    destruct (pose _ _ _ _ _ _); reflexivity.
  - destruct (pose _ _ _ _ _ _); reflexivity.
Qed.

Lemma ease_end : easeInOutCubic 1 = 1.
Proof.
  unfold easeInOutCubic. rewrite JSFacts.ltb_false by lra.
  replace (-2 * 1 + 2) with 0 by lra. rewrite pow_i by lia. lra.
Qed.

Lemma lerp_end a b : MathUtils.lerp a b 1 = b.
Proof. unfold MathUtils.lerp. lra. Qed.

(** A step that reaches the end of the transition. *)
Lemma advance_finishes deltaTime tr f g :
  from tr = Some f -> to tr = Some g ->
  1 <= progress tr + deltaTime / duration tr ->
  advance deltaTime tr
  = (mkTransition false 1 (Some f) (Some g) (duration tr), Some g).
Proof.
  intros Hf Hg Hp. unfold advance. rewrite Hf, Hg.
  rewrite JSFacts.leb_true by assumption. cbn [progress].
  rewrite ease_end, !lerp_end. destruct g; reflexivity.
Qed.

(** A step that stays inside the transition. *)
Lemma advance_continues deltaTime tr f g :
  from tr = Some f -> to tr = Some g ->
  progress tr + deltaTime / duration tr < 1 ->
  advance deltaTime tr
  = (mkTransition (active tr) (progress tr + deltaTime / duration tr)
                  (Some f) (Some g) (duration tr),
     Some (mkParams
             (MathUtils.lerp (distance f) (distance g)
                (easeInOutCubic (progress tr + deltaTime / duration tr)))
             (MathUtils.lerp (height f) (height g)
                (easeInOutCubic (progress tr + deltaTime / duration tr)))
             (MathUtils.lerp (fov f) (fov g)
                (easeInOutCubic (progress tr + deltaTime / duration tr))))).
Proof.
  intros Hf Hg Hp. unfold advance. rewrite Hf, Hg.
  rewrite JSFacts.leb_false by assumption. reflexivity.
Qed.

End CameraFacts.

Module TransitionFacts.

Import Camera.



End TransitionFacts.



(** C3.  In flight, the per-tick camera update does not get a flight phase
    from the flight dynamics model: the Aircraft object has no
    [getFlightPhase], the call of it throws a TypeError, and the shake is
    left as it was, whatever the state of the flight. *)
Theorem camera_update_finds_no_flight_phase :
  forall (aircraft : Aircraft.t) (g : Aircraft.Group.t) (spec : Aircraft.Spec.t)
         (cam : Camera.PerspectiveCamera.t) (deltaTime : R) (c : Camera.t),
    Aircraft.State.isFlying (Aircraft.state aircraft) = true ->
    Aircraft.group aircraft = Some g ->
    Aircraft.currentType aircraft = Some spec ->
    Camera.camera c = Some cam ->
    (Camera.active (Camera.transition c) = true ->
     Camera.from (Camera.transition c) <> None
     /\ Camera.to (Camera.transition c) <> None) ->
    JS.includes Aircraft.members "getFlightPhase" = false
    /\ snd (Camera.update aircraft deltaTime c)
       = JS.Throw (JS.TypeError "aircraft.getFlightPhase is not a function")
    /\ Camera.shake (fst (Camera.update aircraft deltaTime c)) = Camera.shake c.
Proof.
  intros aircraft g spec cam deltaTime c Hfly Hgroup Htype Hcam Hwf.
  split; [reflexivity |].
  unfold Camera.update, Camera.updateWith, Aircraft.getFlightPhase.
  rewrite Hfly, Hgroup, Htype, Hcam. cbn [negb].
  destruct (Camera.active (Camera.transition c)).
  - destruct (Hwf eq_refl) as [Hf Ht]. unfold Camera.advance.
    destruct (Camera.from (Camera.transition c)); [| contradiction].
    destruct (Camera.to (Camera.transition c)); [| contradiction].
    split; reflexivity.
  - split; reflexivity.
Qed.

Lemma camera_update_finds_no_flight_phase_witness :
  snd (Camera.update Scenario.airborne 0.016 Scenario.studio)
  = JS.Throw (JS.TypeError "aircraft.getFlightPhase is not a function").
Proof.
  apply (camera_update_finds_no_flight_phase Scenario.airborne
           (Aircraft.Group.mk (Earth.latLonToVector3 0 0 2) Rotation.identity)
           Aircraft.cessna
           (Camera.PerspectiveCamera.mk 60 (Vector3.new 200 100 200) (Vector3.new 0 1 0)
                            Rotation.identity)
           0.016 Scenario.studio).
  - reflexivity.
  - reflexivity.
  - reflexivity.
  - reflexivity.
  - intros H. discriminate H.
Defined.

(** C8.  A second [setView(view, true)] with the same view starts nothing:
    it leaves the whole transition record (active flag, progress, from, to)
    as the first call left it.  This holds for every view name, the three of
    the view list among them. *)
Theorem setView_twice_keeps_transition :
  forall (view : string) (c : Camera.t),
    let c1 := fst (Camera.setView view true c) in
    let c2 := fst (Camera.setView view true c1) in
    Camera.transition c2 = Camera.transition c1.
Proof.
  intros view c. cbv zeta.
  unfold Camera.setView at 1.
  destruct (negb (JS.includes Camera.views view)) eqn:Hin; [reflexivity |].
  destruct (JS.get view Camera.viewSettings) as [target |] eqn:Hset;
    [| reflexivity].
  set (c1 := fst (Camera.setView view true c)).
  assert (Hview : Camera.currentView c1 = view).
  { unfold c1, Camera.setView. rewrite Hin, Hset. cbn [andb].
    destruct (String.eqb (Camera.currentView c) view) eqn:E; cbn [negb].
    - apply String.eqb_eq in E. destruct (Camera.camera c); cbn; congruence.
    - reflexivity. }
  rewrite Hview, String.eqb_refl. cbn [andb negb].
  destruct (Camera.camera c1); reflexivity.
Qed.


(** * Further properties *)

(** ** Coordinate system and illumination *)

Module EarthMore.

(** [Math.atan2] answers in (-PI, PI]. *)
Lemma atan2_range y x : - PI < JS.atan2 y x <= PI.
Proof.
  pose proof PI_RGT_0 as Hpi. unfold JS.atan2.
  pose proof (atan_bound (y / x)) as Hb.
  unfold JS.ltb, JS.leb.
  destruct (Rlt_dec 0 x) as [Hx | Hx]; [lra |].
  destruct (Rlt_dec x 0) as [Hx' | Hx'].
  - assert (Hinv : / x < 0) by (apply Rinv_lt_0_compat; assumption).
    destruct (Rle_dec 0 y) as [Hy | Hy].
    + assert (Hq : y / x <= 0) by (unfold Rdiv; nra).
      destruct Hq as [Hq | Hq].
      * pose proof (atan_increasing _ _ Hq) as Hi. rewrite atan_0 in Hi. lra.
      * rewrite Hq, atan_0. lra.
    + assert (Hq : 0 < y / x) by (unfold Rdiv; nra).
      pose proof (atan_increasing _ _ Hq) as Hi. rewrite atan_0 in Hi. lra.
  - destruct (Rlt_dec 0 y); [lra |]. destruct (Rlt_dec y 0); lra.
Qed.

Lemma hour_in_day utcHours longitude :
  0 <= utcHours + longitude / 15 + 24 ->
  0 <= Earth.getLocalHour utcHours longitude < 24.
Proof.
  intros H. unfold Earth.getLocalHour.
  destruct (AircraftFacts.rem_range (utcHours + longitude / 15 + 24) 24) as [Hpos _];
    [lra |].
  apply Hpos. assumption.
Qed.

Lemma target_in_unit mode h : 0 <= Earth.nightOpacity mode h <= 1.
Proof.
  unfold Earth.nightOpacity.
  destruct (String.eqb mode "night"); [lra |].
  destruct (String.eqb mode "day"); [lra |].
  unfold JS.leb, JS.ltb.
  repeat match goal with
         | |- context [Rle_dec ?a ?b] => destruct (Rle_dec a b)
         | |- context [Rlt_dec ?a ?b] => destruct (Rlt_dec a b)
         end; cbn [andb]; lra.
Qed.

Lemma reverse_lon_range position :
  -180 <= Earth.lon (Earth.vector3ToLatLon position) < 180.
Proof.
  pose proof PI_RGT_0 as Hpi.
  unfold Earth.vector3ToLatLon. cbn [Earth.lon].
  pose proof (atan2_range (Vector3.z position) (- Vector3.x position)) as [Hlo Hhi].
  set (angle := JS.atan2 (Vector3.z position) (- Vector3.x position)) in *.
  assert (Hdeg : -180 < angle * (180 / PI) <= 180).
  { assert (Hk : 0 < 180 / PI) by (apply Rdiv_lt_0_compat; lra).
    assert (E : PI * (180 / PI) = 180) by (field; lra).
    split; nra. }
  destruct (AircraftFacts.rem_range (angle * (180 / PI) - 180 + 360) 360) as [Hpos _];
    [lra |].
  specialize (Hpos ltac:(lra)). lra.
Qed.

Lemma reverse_lat_range position :
  -90 <= Earth.lat (Earth.vector3ToLatLon position) <= 90.
Proof.
  pose proof PI_RGT_0 as Hpi.
  unfold Earth.vector3ToLatLon. cbn [Earth.lat].
  pose proof (acos_bound (Vector3.y position / Vector3.length position)) as [Hlo Hhi].
  set (angle := acos (Vector3.y position / Vector3.length position)) in *.
  assert (Hk : 0 < 180 / PI) by (apply Rdiv_lt_0_compat; lra).
  assert (E : PI * (180 / PI) = 180) by (field; lra).
  split; nra.
Qed.

End EarthMore.

(** X1.  The forward transform puts a point at distance
    [sceneRadius + altitude] from the centre, whatever the latitude and
    longitude, as long as that distance is not negative. *)
Theorem forward_lands_on_sphere :
  forall lat lon altitude : R,
    0 <= Earth.sceneRadius + altitude ->
    Vector3.length (Earth.latLonToVector3 lat lon altitude)
    = Earth.sceneRadius + altitude.
Proof.
  intros lat lon altitude H. unfold Earth.latLonToVector3.
  apply EarthFacts.sphere_length. assumption.
Qed.

Lemma forward_lands_on_sphere_witness :
  Vector3.length (Earth.latLonToVector3 48 2 10) = Earth.sceneRadius + 10.
Proof.
  apply (forward_lands_on_sphere 48 2 10). unfold Earth.sceneRadius. lra.
Defined.

(** X3.  The reverse transform of a position other than the centre gives a
    latitude in [-90, 90], a longitude in [-180, 180) and, as altitude, the
    distance from the centre less [sceneRadius]. *)
Theorem reverse_transform_ranges :
  forall position : Vector3.t,
    0 < Vector3.length position ->
    let p := Earth.vector3ToLatLon position in
    -90 <= Earth.lat p <= 90
    /\ -180 <= Earth.lon p < 180
    /\ Earth.altitude p = Vector3.length position - Earth.sceneRadius.
Proof.
  intros position _. cbv zeta.
  split; [apply EarthMore.reverse_lat_range |].
  split; [apply EarthMore.reverse_lon_range | reflexivity].
Qed.

Lemma reverse_transform_ranges_witness :
  -180 <= Earth.lon (Earth.vector3ToLatLon (Vector3.new 3 4 12)) < 180.
Proof.
  apply (reverse_transform_ranges (Vector3.new 3 4 12)).
  unfold Vector3.length, Vector3.lengthSq. cbn [Vector3.x Vector3.y Vector3.z].
  apply sqrt_lt_R0. lra.
Defined.

(** X4.  The local hour lies in [0, 24) for every clock reading that is
    not negative and every longitude from -360 up; in particular for the
    longitude the reverse transform gives for any position. *)
Theorem local_hour_in_day :
  forall utcHours longitude : R,
    0 <= utcHours -> -360 <= longitude ->
    0 <= Earth.getLocalHour utcHours longitude < 24
    /\ (forall position : Vector3.t,
          0 <= Earth.getLocalHour utcHours
                 (Earth.lon (Earth.vector3ToLatLon position)) < 24).
Proof.
  intros utcHours longitude Hutc Hlon. split.
  - apply EarthMore.hour_in_day. lra.
  - intros position. apply EarthMore.hour_in_day.
    pose proof (EarthMore.reverse_lon_range position). lra.
Qed.

Lemma local_hour_in_day_witness :
  0 <= Earth.getLocalHour 23.5 (-180) < 24.
Proof.
  apply (local_hour_in_day 23.5 (-180)); lra.
Defined.

(** X5.  The target opacity is between 0 and 1 in every mode at every hour,
    and an opacity of the night layer that starts between 0 and 1 stays
    there through any series of day/night updates. *)
Theorem opacity_stays_in_unit :
  forall (ticks : list (R * Earth.LatLon * string)) (op : R),
    0 <= op <= 1 ->
    (forall mode h, 0 <= Earth.nightOpacity mode h <= 1)
    /\ exists op',
         Earth.frames ticks (Earth.mk (Some (Earth.mkMesh op)))
         = Earth.mk (Some (Earth.mkMesh op'))
         /\ 0 <= op' <= 1.
Proof.
  intros ticks op Hop. split; [apply EarthMore.target_in_unit |].
  revert op Hop.
  induction ticks as [| [[utcHours position] mode] rest IH]; intros op Hop.
  - exists op. split; [reflexivity | assumption].
  - cbn [Earth.frames]. rewrite DayNightFacts.step.
    apply IH.
    pose proof (EarthMore.target_in_unit mode
                  (Earth.getLocalHour utcHours (Earth.lon position))).
    lra.
Qed.

Lemma opacity_stays_in_unit_witness :
  exists op',
    Earth.frames [(3, Earth.mkLatLon 0 0 2, "auto"); (3, Earth.mkLatLon 0 0 2, "day")]
                 (Earth.mk (Some (Earth.mkMesh 0)))
    = Earth.mk (Some (Earth.mkMesh op'))
    /\ 0 <= op' <= 1.
Proof.
  apply (opacity_stays_in_unit
           [(3, Earth.mkLatLon 0 0 2, "auto"); (3, Earth.mkLatLon 0 0 2, "day")] 0).
  lra.
Defined.

(** ** Vectors *)

Module VectorFacts.

Lemma lengthSq_nonneg v : 0 <= Vector3.lengthSq v.
Proof. unfold Vector3.lengthSq. nra. Qed.

Lemma length_nonneg v : 0 <= Vector3.length v.
Proof. apply sqrt_pos. Qed.

Lemma length_sq v : Vector3.length v * Vector3.length v = Vector3.lengthSq v.
Proof. apply sqrt_sqrt, lengthSq_nonneg. Qed.

(** Only the zero vector has length zero. *)
Lemma length_zero v : Vector3.length v = 0 -> v = Vector3.zero.
Proof.
  intros H. apply sqrt_eq_0 in H; [| apply lengthSq_nonneg].
  destruct v as [a b c]. unfold Vector3.lengthSq in H.
  cbn [Vector3.x Vector3.y Vector3.z] in H.
  assert (a = 0) by nra. assert (b = 0) by nra. assert (c = 0) by nra.
  subst. reflexivity.
Qed.

Lemma length_scale v k :
  0 <= k ->
  Vector3.length (Vector3.multiplyScalar v k) = Vector3.length v * k.
Proof.
  intros Hk. unfold Vector3.length.
  replace (Vector3.lengthSq (Vector3.multiplyScalar v k))
    with (Vector3.lengthSq v * (k * k))
    by (unfold Vector3.lengthSq, Vector3.multiplyScalar;
        cbn [Vector3.x Vector3.y Vector3.z]; ring).
  rewrite sqrt_mult; [| apply lengthSq_nonneg | nra].
  rewrite (sqrt_square k) by assumption. reflexivity.
Qed.

(** Normalising a vector other than zero gives a unit vector. *)
Lemma length_normalize v :
  Vector3.length v <> 0 -> Vector3.length (Vector3.normalize v) = 1.
Proof.
  intros H. unfold Vector3.normalize.
  rewrite JSFacts.eqb_false by assumption.
  set (l := Vector3.length v) in *.
  assert (Hl : 0 < l) by (pose proof (length_nonneg v); unfold l in *; lra).
  unfold Vector3.length at 1, Vector3.lengthSq.
  cbn [Vector3.x Vector3.y Vector3.z].
  replace (Vector3.x v / l * (Vector3.x v / l) + Vector3.y v / l * (Vector3.y v / l)
           + Vector3.z v / l * (Vector3.z v / l))
    with (Vector3.lengthSq v / (l * l))
    by (unfold Vector3.lengthSq; field; lra).
  rewrite <- (length_sq v). fold l.
  replace (l * l / (l * l)) with 1 by (field; lra).
  apply sqrt_1.
Qed.

(** The triangle inequality of the Euclidean length. *)
Lemma length_add a b :
  Vector3.length (Vector3.add a b) <= Vector3.length a + Vector3.length b.
Proof.
  pose proof (length_nonneg a) as Ha. pose proof (length_nonneg b) as Hb.
  pose proof (length_nonneg (Vector3.add a b)) as Hab.
  pose proof (length_sq a) as Sa. pose proof (length_sq b) as Sb.
  pose proof (length_sq (Vector3.add a b)) as Sab.
  set (la := Vector3.length a) in *. set (lb := Vector3.length b) in *.
  set (lab := Vector3.length (Vector3.add a b)) in *.
  destruct a as [a1 a2 a3], b as [b1 b2 b3].
  unfold Vector3.lengthSq, Vector3.add in *.
  cbn [Vector3.x Vector3.y Vector3.z] in *.
  set (d := a1 * b1 + a2 * b2 + a3 * b3).
  assert (Hcs : d * d <= (la * lb) * (la * lb)).
  { replace (la * lb * (la * lb)) with ((la * la) * (lb * lb)) by ring.
    rewrite Sa, Sb.
    pose proof (Rle_0_sqr (a1 * b2 - a2 * b1)) as H1.
    pose proof (Rle_0_sqr (a1 * b3 - a3 * b1)) as H2.
    pose proof (Rle_0_sqr (a2 * b3 - a3 * b2)) as H3.
    unfold Rsqr in H1, H2, H3.
    assert (E : (a1 * a1 + a2 * a2 + a3 * a3) * (b1 * b1 + b2 * b2 + b3 * b3) - d * d
                = (a1 * b2 - a2 * b1) * (a1 * b2 - a2 * b1)
                  + (a1 * b3 - a3 * b1) * (a1 * b3 - a3 * b1)
                  + (a2 * b3 - a3 * b2) * (a2 * b3 - a3 * b2))
      by (unfold d; ring).
    lra. }
  assert (Hp : 0 <= la * lb) by (apply Rmult_le_pos; assumption).
  assert (Hd : d <= la * lb).
  { clear - Hcs Hp. set (m := la * lb) in *.
    destruct (Rle_dec d m) as [H | H]; [assumption | exfalso].
    apply Rnot_le_lt in H.
    assert (m * m < d * d) by (apply Rmult_le_0_lt_compat; lra). lra. }
  assert (Hsq : lab * lab <= (la + lb) * (la + lb)).
  { rewrite Sab.
    replace ((a1 + b1) * (a1 + b1) + (a2 + b2) * (a2 + b2) + (a3 + b3) * (a3 + b3))
      with ((a1 * a1 + a2 * a2 + a3 * a3) + (b1 * b1 + b2 * b2 + b3 * b3) + 2 * d)
      by (unfold d; ring).
    rewrite <- Sa, <- Sb. lra. }
  clear - Hsq Ha Hb Hab. set (m := la + lb) in *.
  destruct (Rle_dec lab m) as [H | H]; [assumption | exfalso].
  apply Rnot_le_lt in H.
  assert (0 <= m) by (unfold m; lra).
  assert (m * m < lab * lab) by (apply Rmult_le_0_lt_compat; lra). lra.
Qed.

(** A point is at least as far from another as their distances from the
    centre differ. *)
Lemma distance_lower p q :
  Vector3.length p - Vector3.length q <= Vector3.distanceTo p q.
Proof.
  unfold Vector3.distanceTo.
  pose proof (length_add (Vector3.sub p q) q) as H.
  replace (Vector3.add (Vector3.sub p q) q) with p in H.
  - lra.
  - destruct p, q. unfold Vector3.add, Vector3.sub.
    cbn [Vector3.x Vector3.y Vector3.z]. f_equal; ring.
Qed.

End VectorFacts.

(** ** Flight dynamics, continued *)

Module AircraftMore.

Import Aircraft.

(** What [update] leaves alone. *)
Lemma update_frame deltaTime a :
  let a' := fst (update deltaTime a) in
  currentType a' = currentType a
  /\ input a' = input a
  /\ warnings a' = warnings a
  /\ State.isFlying (state a') = State.isFlying (state a)
  /\ State.destinationAirport (state a') = State.destinationAirport (state a)
  /\ State.takeoffAirport (state a') = State.takeoffAirport (state a)
  /\ State.flightStartTime (state a') = State.flightStartTime (state a)
  /\ (mesh a <> None -> mesh a' <> None)
  /\ (group a <> None -> group a' <> None).
Proof.
  cbv zeta. unfold update.
  destruct (State.isFlying (state a)) eqn:Hfly; cbn [negb];
    [| cbn [fst]; rewrite ?Hfly; repeat split; auto].
  destruct (mesh a) as [m |] eqn:Hmesh;
    [| cbn [fst]; rewrite ?Hfly, ?Hmesh; repeat split; auto].
  destruct (currentType a) as [spec |] eqn:Htype;
    [| cbn [fst]; rewrite ?Hfly, ?Hmesh, ?Htype; repeat split; auto].
  repeat match goal with
         | |- context [JS.ltb ?u ?v] => destruct (JS.ltb u v)
         end;
    destruct (group a) eqn:Hgroup;
    cbn [fst state set_state mesh group currentType input warnings
         State.isFlying State.destinationAirport State.takeoffAirport
         State.flightStartTime];
    rewrite ?Hmesh, ?Hgroup, ?Htype, ?Hfly;
    repeat split; auto; discriminate.
Qed.








End AircraftMore.

(** X2.  For every input off the poles the round trip returns the latitude
    and the altitude it was given, and a longitude half a turn away from
    the one it was given: [lon + 180] for a negative longitude, [lon - 180]
    otherwise. *)
Theorem roundtrip_keeps_latitude_and_altitude :
  forall lat lon altitude : R,
    -90 < lat < 90 -> -180 < lon <= 180 -> 0 <= altitude ->
    Earth.vector3ToLatLon (Earth.latLonToVector3 lat lon altitude)
    = Earth.mkLatLon lat (if JS.ltb lon 0 then lon + 180 else lon - 180) altitude.
Proof.
  intros lat lon altitude Hlat Hlon Halt.
  apply EarthFacts.roundtrip_general; assumption.
Qed.

Lemma roundtrip_keeps_latitude_and_altitude_witness :
  Earth.vector3ToLatLon (Earth.latLonToVector3 48 2 10)
  = Earth.mkLatLon 48 (if JS.ltb 2 0 then 2 + 180 else 2 - 180) 10.
Proof.
  apply (roundtrip_keeps_latitude_and_altitude 48 2 10); lra.
Defined.

(** X6.  A call of [update] made in flight leaves pitch in [-80, 80], roll
    in [-60, 60], the speed within the limits of the selected type, the
    altitude in [0.5, 50] and the heading strictly between -360 and 360,
    whatever the state before, the control input and the tick duration. *)
Theorem update_clamps_from_any_state :
  forall (deltaTime : R) (a : Aircraft.t) (m : Aircraft.Mesh.t)
         (spec : Aircraft.Spec.t),
    Aircraft.State.isFlying (Aircraft.state a) = true ->
    Aircraft.mesh a = Some m ->
    Aircraft.currentType a = Some spec ->
    Aircraft.Spec.minSpeed spec <= Aircraft.Spec.maxSpeed spec ->
    let s' := Aircraft.state (fst (Aircraft.update deltaTime a)) in
    -80 <= Aircraft.State.pitch s' <= 80
    /\ -60 <= Aircraft.State.roll s' <= 60
    /\ -360 < Aircraft.State.heading s' < 360
    /\ Aircraft.Spec.minSpeed spec <= Aircraft.State.speed s'
       <= Aircraft.Spec.maxSpeed spec
    /\ 0.5 <= Aircraft.State.altitude s' <= 50.
Proof.
  intros deltaTime a m spec Hfly Hmesh Htype Hspec. cbv zeta.
  destruct (AircraftFacts.update_ranges deltaTime a m spec Hfly Hmesh Htype Hspec)
    as (H1 & H2 & H3 & H4 & H5 & _).
  repeat split; apply H1 || apply H2 || apply H3 || apply H4 || apply H5.
Qed.

Lemma update_clamps_from_any_state_witness :
  -360 < Aircraft.State.heading
           (Aircraft.state (fst (Aircraft.update 13 Scenario.hardLeft))) < 360.
Proof.
  apply (update_clamps_from_any_state 13 Scenario.hardLeft
           (Aircraft.Mesh.mk (Euler.new 0 0 0 Euler.XYZ) 0.3) Aircraft.cessna).
  - rewrite ScenarioFacts.hardLeft_eq. reflexivity.
  - rewrite ScenarioFacts.hardLeft_eq. reflexivity.
  - rewrite ScenarioFacts.hardLeft_eq. reflexivity.
  - cbn [Aircraft.Spec.minSpeed Aircraft.Spec.maxSpeed Aircraft.cessna]. lra.
Defined.

(** X7.  With a tick of at most two seconds the heading is normalised
    properly: from a heading that is not negative, a roll of at least -60,
    yaw and roll inputs of at least -1 and a handling between 0 and 1.5,
    a call of [update] in flight leaves the heading in [0, 360). *)
Theorem heading_normalised_for_short_ticks :
  forall (deltaTime : R) (a : Aircraft.t) (m : Aircraft.Mesh.t)
         (spec : Aircraft.Spec.t),
    Aircraft.State.isFlying (Aircraft.state a) = true ->
    Aircraft.mesh a = Some m ->
    Aircraft.currentType a = Some spec ->
    0 <= Aircraft.Spec.handling spec <= 1.5 ->
    0 <= Aircraft.State.heading (Aircraft.state a) ->
    -60 <= Aircraft.State.roll (Aircraft.state a) ->
    -1 <= Aircraft.Input.yaw (Aircraft.input a) ->
    -1 <= Aircraft.Input.roll (Aircraft.input a) ->
    0 <= deltaTime <= 2 ->
    0 <= Aircraft.State.heading (Aircraft.state (fst (Aircraft.update deltaTime a)))
      < 360.
Proof.
  intros deltaTime a m spec Hfly Hmesh Htype Hhand Hhead Hroll Hyaw Hiroll Hdt.
  destruct (AircraftFacts.update_state deltaTime a m spec Hfly Hmesh Htype)
    as (_ & _ & Hh & _).
  cbv zeta in Hh. rewrite Hh.
  set (h := Aircraft.Spec.handling spec) in *.
  set (y := Aircraft.Input.yaw (Aircraft.input a)) in *.
  set (r := Aircraft.Input.roll (Aircraft.input a)) in *.
  set (roll := Aircraft.State.roll (Aircraft.state a)) in *.
  set (head := Aircraft.State.heading (Aircraft.state a)) in *.
  assert (Hu : 0 <= h * deltaTime <= 3) by nra.
  set (u := h * deltaTime) in *.
  assert (Hyu : -3 <= y * u) by nra.
  assert (Hru : -3 <= r * u) by nra.
  assert (Hroll1 : -240 <= roll + r * h * 60 * deltaTime).
  { replace (r * h * 60 * deltaTime) with (60 * (r * u)) by (unfold u; ring). lra. }
  set (roll1 := roll + r * h * 60 * deltaTime) in *.
  assert (Hbank : -480 <= roll1 * deltaTime) by nra.
  assert (Hsum : 0 <= head + y * h * 30 * deltaTime + roll1 * 0.5 * deltaTime + 360).
  { replace (y * h * 30 * deltaTime) with (30 * (y * u)) by (unfold u; ring). lra. }
  destruct (AircraftFacts.rem_range
              (head + y * h * 30 * deltaTime + roll1 * 0.5 * deltaTime + 360) 360)
    as [Hpos _]; [lra |].
  apply Hpos. assumption.
Qed.

Lemma heading_normalised_for_short_ticks_witness :
  0 <= Aircraft.State.heading
         (Aircraft.state (fst (Aircraft.update 2 Scenario.hardLeft))) < 360.
Proof.
  apply (heading_normalised_for_short_ticks 2 Scenario.hardLeft
           (Aircraft.Mesh.mk (Euler.new 0 0 0 Euler.XYZ) 0.3) Aircraft.cessna);
    rewrite ?ScenarioFacts.hardLeft_eq;
    cbn [Aircraft.state Aircraft.mesh Aircraft.currentType Aircraft.input
         Aircraft.State.isFlying Aircraft.State.heading Aircraft.State.roll
         Aircraft.Input.yaw Aircraft.Input.roll Aircraft.Spec.handling
         Aircraft.cessna];
    try reflexivity; lra.
Defined.



Module LevelFacts.

Import Aircraft.



End LevelFacts.





(** X11.  After a call of [update] in flight the altitude field agrees with
    the position: unless the position is the very centre of the sphere, its
    distance from the centre is [sceneRadius] plus the altitude, hence
    between [sceneRadius + 0.5] and [sceneRadius + 50]. *)
Theorem altitude_matches_position :
  forall (deltaTime : R) (a : Aircraft.t) (m : Aircraft.Mesh.t)
         (spec : Aircraft.Spec.t),
    Aircraft.State.isFlying (Aircraft.state a) = true ->
    Aircraft.mesh a = Some m ->
    Aircraft.currentType a = Some spec ->
    let s' := Aircraft.state (fst (Aircraft.update deltaTime a)) in
    Aircraft.State.position s' <> Vector3.zero ->
    Vector3.length (Aircraft.State.position s')
    = Earth.sceneRadius + Aircraft.State.altitude s'
    /\ Earth.sceneRadius + 0.5 <= Vector3.length (Aircraft.State.position s')
       <= Earth.sceneRadius + 50.
Proof.
  intros deltaTime a m spec Hfly Hmesh Htype. cbv zeta.
  destruct (AircraftFacts.update_state deltaTime a m spec Hfly Hmesh Htype)
    as (_ & _ & _ & _ & _ & Ea & Ep).
  cbv zeta in Ea, Ep. rewrite Ea, Ep. clear Ea Ep.
  match goal with
  | |- context [JS.ltb (Vector3.length ?p) _] => set (p1 := p)
  end.
  unfold Earth.sceneRadius, JS.ltb.
  destruct (Rlt_dec (Vector3.length p1) (100 + 0.5)) as [Hlow | Hlow].
  - intros Hnz.
    assert (Hl : Vector3.length p1 <> 0).
    { intros H0. apply Hnz. apply VectorFacts.length_zero in H0.
      rewrite H0. unfold Vector3.normalize.
      replace (Vector3.length Vector3.zero) with 0.
      - rewrite JSFacts.eqb_true by reflexivity.
        unfold Vector3.multiplyScalar, Vector3.zero.
        cbn [Vector3.x Vector3.y Vector3.z]. f_equal; lra.
      - unfold Vector3.length, Vector3.lengthSq, Vector3.zero.
        cbn [Vector3.x Vector3.y Vector3.z].
        replace (0 * 0 + 0 * 0 + 0 * 0) with 0 by lra. symmetry. apply sqrt_0. }
    rewrite VectorFacts.length_scale by lra.
    rewrite VectorFacts.length_normalize by assumption. lra.
  - destruct (Rlt_dec (100 + 50) (Vector3.length p1)) as [Hhigh | Hhigh].
    + intros _.
      rewrite VectorFacts.length_scale by lra.
      rewrite VectorFacts.length_normalize by lra. lra.
    + intros _. lra.
Qed.

Lemma altitude_matches_position_witness :
  Vector3.length
    (Aircraft.State.position (Aircraft.state (fst (Aircraft.update 0 Scenario.airborne))))
  = Earth.sceneRadius
    + Aircraft.State.altitude (Aircraft.state (fst (Aircraft.update 0 Scenario.airborne))).
Proof.
  apply (altitude_matches_position 0 Scenario.airborne
           (Aircraft.Mesh.mk (Euler.new 0 0 0 Euler.XYZ) 0.3) Aircraft.cessna);
    try (rewrite ScenarioFacts.airborne_eq; reflexivity).
  destruct (AircraftFacts.update_state 0 Scenario.airborne
              (Aircraft.Mesh.mk (Euler.new 0 0 0 Euler.XYZ) 0.3) Aircraft.cessna)
    as (_ & _ & _ & _ & _ & _ & Ep);
    try (rewrite ScenarioFacts.airborne_eq; reflexivity).
  cbv zeta in Ep. rewrite Ep. clear Ep.
  rewrite ScenarioFacts.airborne_eq.
  cbn [Aircraft.state Aircraft.State.position].
  rewrite ScenarioFacts.origin_position.
  match goal with
  | |- context [Vector3.multiplyScalar ?f (?k * 0 * 0.01)] =>
      replace (Vector3.add (Vector3.new 102 0 0) (Vector3.multiplyScalar f (k * 0 * 0.01)))
        with (Vector3.new 102 0 0)
  end.
  - rewrite (ForwardFacts.length_axis 102) by lra. unfold Earth.sceneRadius.
    rewrite (JSFacts.ltb_false 102 (100 + 0.5)) by lra.
    rewrite (JSFacts.ltb_false (100 + 50) 102) by lra.
    intros H. injection H as H. lra.
  - unfold Vector3.add, Vector3.multiplyScalar.
    cbn [Vector3.x Vector3.y Vector3.z]. f_equal; ring.
Defined.

(** X12.  Without a destination the distance is [null].  With one, the
    distance is given, and for an aircraft no nearer to the centre than
    [sceneRadius + 0.5], which is where [update] keeps it, it is never less
    than [0.5 * 6371 / 100] = 31.855 km: the destination lies on the
    surface. *)
Theorem distance_to_destination_floor :
  forall (a : Aircraft.t),
    (Aircraft.State.destinationAirport (Aircraft.state a) = None ->
     Aircraft.getDistanceToDestination a = None)
    /\ (forall destination : Aircraft.Airport,
          Aircraft.State.destinationAirport (Aircraft.state a) = Some destination ->
          Earth.sceneRadius + 0.5
            <= Vector3.length (Aircraft.State.position (Aircraft.state a)) ->
          exists km,
            Aircraft.getDistanceToDestination a = Some km /\ 31.855 <= km).
Proof.
  intros a. unfold Aircraft.getDistanceToDestination. split.
  - intros ->. reflexivity.
  - intros destination -> Hfar. eexists. split; [reflexivity |].
    pose proof (VectorFacts.distance_lower
                  (Aircraft.State.position (Aircraft.state a))
                  (Earth.latLonToVector3 (Aircraft.lat destination)
                     (Aircraft.lon destination) 0)) as Hd.
    unfold Earth.latLonToVector3 in Hd at 1.
    rewrite EarthFacts.sphere_length in Hd by (unfold Earth.sceneRadius; lra).
    unfold Earth.sceneRadius, Earth.radius in *.
    set (d := Vector3.distanceTo _ _) in *. lra.
Qed.

Lemma distance_to_destination_floor_witness :
  exists km,
    Aircraft.getDistanceToDestination
      (Aircraft.setDestination Scenario.origin Scenario.airborne) = Some km
    /\ 31.855 <= km.
Proof.
  apply (distance_to_destination_floor
           (Aircraft.setDestination Scenario.origin Scenario.airborne)
         ) with (destination := Scenario.origin).
  - rewrite ScenarioFacts.airborne_eq. reflexivity.
  - rewrite ScenarioFacts.airborne_eq.
    cbn [Aircraft.setDestination Aircraft.set_state Aircraft.state
         Aircraft.State.position].
    rewrite ScenarioFacts.origin_position, (ForwardFacts.length_axis 102) by lra.
    unfold Earth.sceneRadius. lra.
Defined.

(** ** Camera, continued *)

Module EaseFacts.

Import Camera.

Lemma cube_monotone x y : x <= y -> x * x * x <= y * y * y.
Proof.
  intros H.
  assert (Hq : 0 <= y * y + x * y + x * x).
  { pose proof (Rle_0_sqr (y + x / 2)) as H1. pose proof (Rle_0_sqr x) as H2.
    unfold Rsqr in *. lra. }
  replace (y * y * y) with (x * x * x + (y - x) * (y * y + x * y + x * x)) by ring.
  assert (0 <= (y - x) * (y * y + x * y + x * x)) by (apply Rmult_le_pos; lra).
  lra.
Qed.

Lemma ease_low t : t < 0.5 -> easeInOutCubic t = 4 * (t * t * t).
Proof.
  intros H. unfold easeInOutCubic. rewrite JSFacts.ltb_true by assumption. ring.
Qed.

Lemma ease_high t :
  0.5 <= t -> easeInOutCubic t = 1 - 4 * ((1 - t) * (1 - t) * (1 - t)).
Proof.
  intros H. unfold easeInOutCubic. rewrite JSFacts.ltb_false by assumption.
  cbn [pow]. field.
Qed.

Lemma ease_start : easeInOutCubic 0 = 0.
Proof. rewrite ease_low by lra. lra. Qed.

Lemma ease_symmetry t : easeInOutCubic (1 - t) = 1 - easeInOutCubic t.
Proof.
  destruct (Rlt_dec t 0.5) as [H | H].
  - rewrite (ease_low t) by assumption. rewrite ease_high by lra.
    replace (1 - (1 - t)) with t by lra. reflexivity.
  - apply Rnot_lt_le in H. rewrite (ease_high t) by assumption.
    destruct H as [H | H].
    + rewrite ease_low by lra. lra.
    + rewrite ease_high by lra. rewrite <- H. lra.
Qed.

Lemma ease_monotone s t : s <= t -> easeInOutCubic s <= easeInOutCubic t.
Proof.
  intros H.
  destruct (Rlt_dec s 0.5) as [Hs | Hs]; destruct (Rlt_dec t 0.5) as [Ht | Ht].
  - rewrite !ease_low by assumption. pose proof (cube_monotone s t H). lra.
  - apply Rnot_lt_le in Ht. rewrite ease_low, ease_high by assumption.
    pose proof (cube_monotone s 0.5 ltac:(lra)).
    pose proof (cube_monotone (1 - t) 0.5 ltac:(lra)). lra.
  - lra.
  - apply Rnot_lt_le in Hs, Ht. rewrite !ease_high by assumption.
    pose proof (cube_monotone (1 - t) (1 - s) ltac:(lra)). lra.
Qed.

Lemma ease_unit t : 0 <= t <= 1 -> 0 <= easeInOutCubic t <= 1.
Proof.
  intros [H0 H1].
  pose proof (ease_monotone 0 t H0) as Hlo.
  pose proof (ease_monotone t 1 H1) as Hhi.
  rewrite ease_start in Hlo. rewrite CameraFacts.ease_end in Hhi. lra.
Qed.

(** A point of the segment lies between its ends. *)
Lemma lerp_between a b u :
  0 <= u <= 1 -> Rmin a b <= MathUtils.lerp a b u <= Rmax a b.
Proof.
  intros Hu. unfold MathUtils.lerp, Rmin, Rmax.
  destruct (Rle_dec a b); split; nra.
Qed.

End EaseFacts.

(** X13.  The easing curve starts at 0, ends at 1, never decreases, stays
    within [0, 1] on [0, 1], and is symmetric about the midpoint:
    [ease (1 - t) = 1 - ease t]. *)
Theorem easing_curve_shape :
  Camera.easeInOutCubic 0 = 0
  /\ Camera.easeInOutCubic 1 = 1
  /\ (forall t, Camera.easeInOutCubic (1 - t) = 1 - Camera.easeInOutCubic t)
  /\ (forall s t, s <= t -> Camera.easeInOutCubic s <= Camera.easeInOutCubic t)
  /\ (forall t, 0 <= t <= 1 -> 0 <= Camera.easeInOutCubic t <= 1).
Proof.
  split; [apply EaseFacts.ease_start |].
  split; [apply CameraFacts.ease_end |].
  split; [apply EaseFacts.ease_symmetry |].
  split; [apply EaseFacts.ease_monotone | apply EaseFacts.ease_unit].
Qed.

Lemma easing_curve_shape_witness :
  Camera.easeInOutCubic 0.25 <= Camera.easeInOutCubic 0.75.
Proof.
  destruct easing_curve_shape as (_ & _ & _ & Hmono & _).
  apply Hmono. lra.
Defined.

Module CameraMore.

Import Camera.

(** The progress after a step of an active transition. *)
Lemma advance_progress deltaTime tr :
  0 <= progress tr <= 1 -> 0 <= deltaTime -> 0 < duration tr ->
  let tr1 := fst (advance deltaTime tr) in
  progress tr <= progress tr1 <= 1
  /\ progress tr1 - progress tr <= deltaTime / duration tr
  /\ from tr1 = from tr /\ to tr1 = to tr /\ duration tr1 = duration tr
  /\ (active tr1 = true -> active tr = true).
Proof.
  intros Hp Hdt Hd. cbv zeta. unfold advance. cbn [fst].
  assert (Hq : 0 <= deltaTime / duration tr).
  { apply Rmult_le_pos; [assumption | left; apply Rinv_0_lt_compat; assumption]. }
  unfold JS.leb.
  destruct (Rle_dec 1 (progress tr + deltaTime / duration tr)) as [H | H];
    cbn [progress from to duration active].
  - repeat split; try lra; try discriminate; auto.
  - apply Rnot_le_lt in H. repeat split; try lra; auto.
Qed.

Lemma includes_in l v : JS.includes l v = true -> In v l.
Proof.
  unfold JS.includes. intros H. apply existsb_exists in H.
  destruct H as (w & Hin & Heq). apply String.eqb_eq in Heq. subst. assumption.
Qed.

Lemma setView_wellFormed view animate c :
  wellFormed c ->
  wellFormed (fst (setView view animate c))
  /\ snd (setView view animate c) = JS.Normal.
Proof.
  intros Hwf. pose proof Hwf as (Hcam & Hview & Hprog & Hdur & Hends).
  unfold setView.
  destruct (JS.includes views view) eqn:Hin; cbn [negb];
    [| split; [assumption | reflexivity]].
  apply includes_in in Hin.
  destruct (JS.get view viewSettings) as [target |];
    [| split; [assumption | reflexivity]].
  destruct (animate && negb (String.eqb (currentView c) view)).
  - cbn [fst snd]. split; [| reflexivity]. unfold wellFormed.
    cbn [camera currentView transition progress duration active from to].
    repeat split; try assumption; try lra; discriminate.
  - destruct (camera c) as [cam |] eqn:Ecam; [| contradiction].
    cbn [fst snd]. split; [| reflexivity]. unfold wellFormed.
    cbn [camera currentView transition].
    repeat split; try assumption; try discriminate; try lra; apply Hends; assumption.
Qed.

Lemma nextView_wellFormed c :
  wellFormed c ->
  wellFormed (fst (nextView c)) /\ snd (nextView c) = JS.Normal.
Proof.
  intros Hwf. unfold nextView.
  match goal with
  | |- context [setView ?v true c] =>
      destruct (setView_wellFormed v true c Hwf) as [H1 H2];
      destruct (setView v true c) as [c' r]
  end.
  cbn [fst snd] in H1, H2. subst r. cbn [fst snd]. split; [| reflexivity].
  destruct H1 as (Hcam & Hview & Hprog & Hdur & Hends). unfold wellFormed.
  cbn [camera currentView transition]. repeat split; try assumption; try lra;
    apply Hends; assumption.
Qed.

(** What [update] does to the parts that make the shape, in every branch. *)
Lemma updateWith_shape method aircraft deltaTime c :
  let c' := fst (updateWith method aircraft deltaTime c) in
  currentView c' = currentView c
  /\ dispatched c' = dispatched c
  /\ (camera c <> None -> camera c' <> None)
  /\ (transition c' = transition c
      \/ (active (transition c) = true
          /\ transition c' = fst (advance deltaTime (transition c)))).
Proof.
  cbv zeta. unfold updateWith.
  destruct (Aircraft.State.isFlying (Aircraft.state aircraft)); cbn [negb];
    [| repeat split; auto].
  destruct (Aircraft.group aircraft) as [g |]; [| repeat split; auto].
  destruct (active (transition c)) eqn:Hact.
  - destruct (advance deltaTime (transition c)) as [tr1 [st1 |]] eqn:Hadv;
      cbn [fst snd].
    + destruct (Aircraft.currentType aircraft); [| repeat split; auto].
      destruct (camera c) eqn:Hcam; [| repeat split; auto].
      destruct method as [phase |];
        [| cbn [fst camera currentView dispatched transition];
           repeat split; auto; discriminate].
      destruct (pose _ _ _ _ _ _);
        cbn [fst camera currentView dispatched transition];
        repeat split; auto; discriminate.
    + repeat split; auto.
  - destruct (Aircraft.currentType aircraft); [| repeat split; auto].
    destruct (camera c) eqn:Hcam; [| repeat split; auto].
    destruct method as [phase |];
      [| cbn [fst camera currentView dispatched transition];
         repeat split; auto; discriminate].
    destruct (pose _ _ _ _ _ _);
      cbn [fst camera currentView dispatched transition];
      repeat split; auto; discriminate.
Qed.

Lemma updateWith_wellFormed method aircraft deltaTime c :
  0 <= deltaTime -> wellFormed c ->
  wellFormed (fst (updateWith method aircraft deltaTime c)).
Proof.
  intros Hdt (Hcam & Hview & Hprog & Hdur & Hends).
  destruct (updateWith_shape method aircraft deltaTime c)
    as (Ev & _ & Ec & [Et | [Hact Et]]); cbv zeta in *;
    unfold wellFormed; rewrite Ev, Et.
  - repeat split; try lra; auto; apply Hends; assumption.
  - destruct (advance_progress deltaTime (transition c)) as (P1 & _ & Pf & Pt & Pd & Pa);
      try lra.
    cbv zeta in *. rewrite Pf, Pt, Pd.
    repeat split; try lra; auto; apply Hends; auto.
Qed.

Lemma perform_wellFormed method cl c :
  forward cl -> wellFormed c -> wellFormed (fst (perform method cl c)).
Proof.
  intros Hf Hwf. destruct cl as [view animate | | aircraft deltaTime];
    cbn [perform].
  - apply setView_wellFormed. assumption.
  - apply nextView_wellFormed. assumption.
  - apply updateWith_wellFormed; assumption.
Qed.

Lemma run_wellFormed method : forall calls c,
  Forall forward calls -> wellFormed c -> wellFormed (run method calls c).
Proof.
  induction calls as [| cl rest IH]; intros c Hf Hwf.
  - assumption.
  - apply Forall_cons_iff in Hf as [Hhead Hrest].
    cbn [run]. apply IH; [assumption |].
    apply perform_wellFormed; assumption.
Qed.

Lemma init_wellFormed cam : wellFormed (fst (init cam initial)).
Proof.
  unfold init, setView, wellFormed. cbn. repeat split; try lra; auto; discriminate.
Qed.

(** A call made in flight with no [getFlightPhase] throws in every branch. *)
Lemma update_throws aircraft g deltaTime c :
  Aircraft.State.isFlying (Aircraft.state aircraft) = true ->
  Aircraft.group aircraft = Some g ->
  exists e, snd (update aircraft deltaTime c) = JS.Throw e.
Proof.
  intros Hfly Hgroup. unfold update, updateWith, Aircraft.getFlightPhase.
  rewrite Hfly, Hgroup. cbn [negb].
  destruct (active (transition c)).
  - destruct (advance deltaTime (transition c)) as [tr1 [st1 |]].
    + destruct (Aircraft.currentType aircraft); [| eexists; reflexivity].
      destruct (camera c); eexists; reflexivity.
    + eexists; reflexivity.
  - destruct (Aircraft.currentType aircraft); [| eexists; reflexivity].
    destruct (camera c); eexists; reflexivity.
Qed.

End CameraMore.

(** X14.  While a transition runs, the camera parameters stay between
    those it started from and those of the target: after a call of [update]
    in flight on an active transition whose progress is in [0, 1], with a
    tick that is not negative, distance, height and field of view each lie
    between the [from] value and the [to] value. *)
Theorem transition_stays_between_views :
  forall (method : option (Aircraft.t -> string)) (aircraft : Aircraft.t)
         (gr : Aircraft.Group.t) (deltaTime : R) (c : Camera.t)
         (f g : Camera.Params),
    Aircraft.State.isFlying (Aircraft.state aircraft) = true ->
    Aircraft.group aircraft = Some gr ->
    Camera.active (Camera.transition c) = true ->
    Camera.from (Camera.transition c) = Some f ->
    Camera.to (Camera.transition c) = Some g ->
    0 <= Camera.progress (Camera.transition c) <= 1 ->
    0 < Camera.duration (Camera.transition c) ->
    0 <= deltaTime ->
    let st := Camera.state (fst (Camera.updateWith method aircraft deltaTime c)) in
    Rmin (Camera.distance f) (Camera.distance g) <= Camera.distance st
      <= Rmax (Camera.distance f) (Camera.distance g)
    /\ Rmin (Camera.height f) (Camera.height g) <= Camera.height st
       <= Rmax (Camera.height f) (Camera.height g)
    /\ Rmin (Camera.fov f) (Camera.fov g) <= Camera.fov st
       <= Rmax (Camera.fov f) (Camera.fov g).
Proof.
  intros method aircraft gr deltaTime c f g Hfly Hgroup Hact Hf Hg Hp Hd Hdt.
  cbv zeta.
  destruct (CameraFacts.updateWith_transition method aircraft gr deltaTime c
              Hfly Hgroup) as [_ Hst].
  cbv zeta in Hst. rewrite Hact in Hst. rewrite Hst. clear Hst.
  assert (Hq : 0 <= deltaTime / Camera.duration (Camera.transition c)).
  { apply Rmult_le_pos; [assumption | left; apply Rinv_0_lt_compat; assumption]. }
  destruct (Rle_dec 1 (Camera.progress (Camera.transition c)
                       + deltaTime / Camera.duration (Camera.transition c)))
    as [Hend | Hmid].
  - rewrite (CameraFacts.advance_finishes _ _ f g Hf Hg Hend). cbn [snd].
    repeat split; apply Rmin_r || apply Rmax_r.
  - apply Rnot_le_lt in Hmid.
    rewrite (CameraFacts.advance_continues _ _ f g Hf Hg Hmid). cbn [snd].
    match goal with
    | |- context [Camera.easeInOutCubic ?p] =>
        pose proof (EaseFacts.ease_unit p ltac:(lra)) as Hu;
        set (u := Camera.easeInOutCubic p) in *
    end.
    cbn [Camera.distance Camera.height Camera.fov].
    repeat split; apply EaseFacts.lerp_between; assumption.
Qed.

Lemma transition_stays_between_views_witness :
  Rmin 5 0 <= Camera.distance
                (Camera.state
                   (fst (Camera.updateWith None Scenario.airborne 0.1
                                           Scenario.switching)))
  <= Rmax 5 0.
Proof.
  apply (transition_stays_between_views None Scenario.airborne
           (Aircraft.Group.mk (Earth.latLonToVector3 0 0 2) Rotation.identity)
           0.1 Scenario.switching (Camera.mkParams 5 2 60) (Camera.mkParams 0 0.2 90));
    try reflexivity; cbn; lra.
Defined.

(** X15.  The Camera object keeps its shape.  After [init], through any
    series of view changes and updates with ticks that are not negative, it
    has its camera, the current view is one of the view list, the progress
    is in [0, 1], the duration is positive and an active transition has both
    its ends; and in every such state [setView] and [nextView] complete
    without an exception. *)
Theorem camera_calls_keep_shape :
  forall (method : option (Aircraft.t -> string))
         (cam : Camera.PerspectiveCamera.t) (calls : list Camera.call),
    Forall Camera.forward calls ->
    let c := Camera.run method calls (fst (Camera.init cam Camera.initial)) in
    Camera.wellFormed c
    /\ (forall view animate, snd (Camera.setView view animate c) = JS.Normal)
    /\ snd (Camera.nextView c) = JS.Normal.
Proof.
  intros method cam calls Hf. cbv zeta.
  pose proof (CameraMore.run_wellFormed method calls _ Hf
                (CameraMore.init_wellFormed cam)) as Hwf.
  split; [assumption |]. split.
  - intros view animate. apply CameraMore.setView_wellFormed. assumption.
  - apply CameraMore.nextView_wellFormed. assumption.
Qed.

Lemma camera_calls_keep_shape_witness :
  Camera.wellFormed
    (Camera.run None
       [Camera.NextView; Camera.Update Scenario.airborne 0.3;
        Camera.SetView "overhead" true; Camera.Update Scenario.airborne 0.4]
       (fst (Camera.init Scenario.lens Camera.initial))).
Proof.
  apply (camera_calls_keep_shape None Scenario.lens
           [Camera.NextView; Camera.Update Scenario.airborne 0.3;
            Camera.SetView "overhead" true; Camera.Update Scenario.airborne 0.4]).
  repeat constructor; cbn; lra.
Defined.

Module ViewFacts.

Import Camera.

(** [nextView] from each view of the list. *)
Lemma nextView_from view next target cam tr st sh b cf d :
  (view, next, target) = ("thirdPerson", "cockpit", mkParams 0 0.2 90)
  \/ (view, next, target) = ("cockpit", "overhead", mkParams 20 15 45)
  \/ (view, next, target) = ("overhead", "thirdPerson", mkParams 5 2 60) ->
  nextView (mk cam view tr st sh b cf d)
  = (mk cam next (mkTransition true 0 (Some st) (Some target) (duration tr))
        st sh b cf (d ++ [next]),
     JS.Normal).
Proof.
  intros [E | [E | E]]; injection E as -> -> ->; reflexivity.
Qed.


End ViewFacts.

(** X16.  [nextView] walks the view list in a circle.  From a current view
    of the list, three calls come back to it, having announced the two
    other views and then it, in that order; each call leaves the parameters
    alone and starts a transition from progress 0.  From a current view that
    is not in the list, one call goes to the first view. *)
Theorem nextView_cycles :
  forall c : Camera.t,
    (In (Camera.currentView c) Camera.views ->
     let c3 :=
       fst (Camera.nextView (fst (Camera.nextView (fst (Camera.nextView c))))) in
     Camera.currentView c3 = Camera.currentView c
     /\ Camera.state c3 = Camera.state c
     /\ Camera.active (Camera.transition c3) = true
     /\ Camera.progress (Camera.transition c3) = 0
     /\ Camera.to (Camera.transition c3)
        = JS.get (Camera.currentView c) Camera.viewSettings
     /\ exists v1 v2,
          Camera.dispatched c3
          = Camera.dispatched c ++ [v1; v2; Camera.currentView c]
          /\ In v1 Camera.views /\ In v2 Camera.views
          /\ v1 <> v2 /\ v1 <> Camera.currentView c
          /\ v2 <> Camera.currentView c)
    /\ (~ In (Camera.currentView c) Camera.views ->
        Camera.currentView (fst (Camera.nextView c)) = "thirdPerson").
Proof.
  intros c. split.
  - intros Hin. cbv zeta.
    assert (Hcases : Camera.currentView c = "thirdPerson"
                     \/ Camera.currentView c = "cockpit"
                     \/ Camera.currentView c = "overhead").
    { cbn in Hin. destruct Hin as [H | [H | [H | []]]]; auto. }
    destruct c as [cam view tr st sh b cf d].
    cbn [Camera.currentView Camera.state Camera.dispatched] in *.
    destruct Hcases as [H | [H | H]]; subst view.
    + rewrite (ViewFacts.nextView_from "thirdPerson" "cockpit"
                 (Camera.mkParams 0 0.2 90)) by auto.
      cbn [fst].
      rewrite (ViewFacts.nextView_from "cockpit" "overhead"
                 (Camera.mkParams 20 15 45)) by auto.
      cbn [fst].
      rewrite (ViewFacts.nextView_from "overhead" "thirdPerson"
                 (Camera.mkParams 5 2 60)) by auto.
      cbn [fst Camera.currentView Camera.state Camera.transition Camera.active
           Camera.progress Camera.to Camera.dispatched].
      repeat split.
      exists "cockpit", "overhead".
      rewrite <- !app_assoc. cbn [app Camera.views In].
      repeat split; auto; discriminate.
    + rewrite (ViewFacts.nextView_from "cockpit" "overhead"
                 (Camera.mkParams 20 15 45)) by auto.
      cbn [fst].
      rewrite (ViewFacts.nextView_from "overhead" "thirdPerson"
                 (Camera.mkParams 5 2 60)) by auto.
      cbn [fst].
      rewrite (ViewFacts.nextView_from "thirdPerson" "cockpit"
                 (Camera.mkParams 0 0.2 90)) by auto.
      cbn [fst Camera.currentView Camera.state Camera.transition Camera.active
           Camera.progress Camera.to Camera.dispatched].
      repeat split.
      exists "overhead", "thirdPerson".
      rewrite <- !app_assoc. cbn [app Camera.views In].
      repeat split; auto; discriminate.
    + rewrite (ViewFacts.nextView_from "overhead" "thirdPerson"
                 (Camera.mkParams 5 2 60)) by auto.
      cbn [fst].
      rewrite (ViewFacts.nextView_from "thirdPerson" "cockpit"
                 (Camera.mkParams 0 0.2 90)) by auto.
      cbn [fst].
      rewrite (ViewFacts.nextView_from "cockpit" "overhead"
                 (Camera.mkParams 20 15 45)) by auto.
      cbn [fst Camera.currentView Camera.state Camera.transition Camera.active
           Camera.progress Camera.to Camera.dispatched].
      repeat split.
      exists "thirdPerson", "cockpit".
      rewrite <- !app_assoc. cbn [app Camera.views In].
      repeat split; auto; discriminate.
  - intros Hout.
    assert (H1 : String.eqb "thirdPerson" (Camera.currentView c) = false).
    { apply String.eqb_neq. intros E. apply Hout. rewrite <- E. cbn. auto. }
    assert (H2 : String.eqb "cockpit" (Camera.currentView c) = false).
    { apply String.eqb_neq. intros E. apply Hout. rewrite <- E. cbn. auto. }
    assert (H3 : String.eqb "overhead" (Camera.currentView c) = false).
    { apply String.eqb_neq. intros E. apply Hout. rewrite <- E. cbn. auto. }
    unfold Camera.nextView, Camera.views. cbn [Camera.indexOf].
    rewrite H1, H2, H3. cbn [Z.ltb Z.compare Z.add Z.rem Z.of_nat List.length].
    cbn. rewrite String.eqb_sym, H1. reflexivity.
Qed.

Lemma nextView_cycles_witness :
  Camera.currentView
    (fst (Camera.nextView (fst (Camera.nextView (fst (Camera.nextView Scenario.studio))))))
  = Camera.currentView Scenario.studio.
Proof.
  apply (nextView_cycles Scenario.studio). cbn. auto.
Defined.



(** X18.  The speed effect on the field of view.  In flight with no
    transition running, a call of [update] moves the current field of view a
    twentieth of the way to [baseFOV + speed / maxSpeed * 15], writes it to
    the camera and leaves the base value alone; with the speed between 0 and
    the maximum, a current value between the base and the base plus 15 stays
    there. *)
Theorem speed_widens_field_of_view :
  forall (method : option (Aircraft.t -> string)) (aircraft : Aircraft.t)
         (g : Aircraft.Group.t) (spec : Aircraft.Spec.t)
         (cam : Camera.PerspectiveCamera.t) (deltaTime : R) (c : Camera.t),
    Aircraft.State.isFlying (Aircraft.state aircraft) = true ->
    Aircraft.group aircraft = Some g ->
    Aircraft.currentType aircraft = Some spec ->
    Camera.camera c = Some cam ->
    Camera.active (Camera.transition c) = false ->
    let c' := fst (Camera.updateWith method aircraft deltaTime c) in
    let target :=
      Camera.baseFOV c
      + Aircraft.State.speed (Aircraft.state aircraft)
        / Aircraft.Spec.maxSpeed spec * 15 in
    Camera.currentFOV c' - target = 0.95 * (Camera.currentFOV c - target)
    /\ Camera.baseFOV c' = Camera.baseFOV c
    /\ (exists cam',
          Camera.camera c' = Some cam'
          /\ Camera.PerspectiveCamera.fov cam' = Camera.currentFOV c')
    /\ (0 <= Aircraft.State.speed (Aircraft.state aircraft)
          <= Aircraft.Spec.maxSpeed spec ->
        0 < Aircraft.Spec.maxSpeed spec ->
        Camera.baseFOV c <= Camera.currentFOV c <= Camera.baseFOV c + 15 ->
        Camera.baseFOV c <= Camera.currentFOV c' <= Camera.baseFOV c + 15).
Proof.
  intros method aircraft g spec cam deltaTime c Hfly Hgroup Htype Hcam Hoff.
  cbv zeta.
  assert (Hfov : Camera.currentFOV (fst (Camera.updateWith method aircraft deltaTime c))
                 = MathUtils.lerp (Camera.currentFOV c)
                     (Camera.baseFOV c
                      + Aircraft.State.speed (Aircraft.state aircraft)
                        / Aircraft.Spec.maxSpeed spec * 15) 0.05
                 /\ Camera.baseFOV (fst (Camera.updateWith method aircraft deltaTime c))
                    = Camera.baseFOV c
                 /\ exists cam',
                      Camera.camera (fst (Camera.updateWith method aircraft deltaTime c))
                      = Some cam'
                      /\ Camera.PerspectiveCamera.fov cam'
                         = MathUtils.lerp (Camera.currentFOV c)
                             (Camera.baseFOV c
                              + Aircraft.State.speed (Aircraft.state aircraft)
                                / Aircraft.Spec.maxSpeed spec * 15) 0.05).
  { unfold Camera.updateWith. rewrite Hfly, Hgroup, Hoff, Htype, Hcam. cbn [negb].
    destruct method as [phase |].
    - destruct (Camera.pose _ _ _ _ _ _) as [cam2 |] eqn:Hpose;
        cbn [fst Camera.currentFOV Camera.baseFOV Camera.camera].
      + repeat split. exists cam2. split; [reflexivity |].
        unfold Camera.pose in Hpose.
        repeat match type of Hpose with
               | context [if ?b then _ else _] => destruct b
               | context [match ?o with Some _ => _ | None => _ end] => destruct o
               end;
          try discriminate; injection Hpose as <-; reflexivity.
      + repeat split. eexists. split; reflexivity.
    - cbn [fst Camera.currentFOV Camera.baseFOV Camera.camera].
      repeat split. eexists. split; reflexivity. }
  destruct Hfov as (E1 & E2 & cam' & E3 & E4).
  rewrite E1, E2. unfold MathUtils.lerp.
  split; [lra |]. split; [reflexivity |].
  split; [exists cam'; split; assumption |].
  intros Hspeed Hmax Hcur.
  assert (Hratio : 0 <= Aircraft.State.speed (Aircraft.state aircraft)
                        / Aircraft.Spec.maxSpeed spec <= 1).
  { assert (Hinv : 0 < / Aircraft.Spec.maxSpeed spec)
      by (apply Rinv_0_lt_compat; assumption).
    split.
    - apply Rmult_le_pos; lra.
    - apply Rmult_le_reg_r with (Aircraft.Spec.maxSpeed spec); [assumption |].
      unfold Rdiv. rewrite Rmult_assoc, Rinv_l by lra. lra. }
  set (ratio := Aircraft.State.speed (Aircraft.state aircraft)
                / Aircraft.Spec.maxSpeed spec) in *.
  lra.
Qed.

Lemma speed_widens_field_of_view_witness :
  Camera.baseFOV (fst (Camera.updateWith None Scenario.airborne 0.016 Scenario.studio))
  = Camera.baseFOV Scenario.studio.
Proof.
  apply (speed_widens_field_of_view None Scenario.airborne
           (Aircraft.Group.mk (Earth.latLonToVector3 0 0 2) Rotation.identity)
           Aircraft.cessna
           (Camera.PerspectiveCamera.mk 60 (Vector3.new 200 100 200)
              (Vector3.new 0 1 0) Rotation.identity)
           0.016 Scenario.studio); reflexivity.
Defined.

(** X19.  While the aircraft is in flight the frame never gets to the
    day/night update: the camera update throws first, so the frame ends in an
    exception and the Earth object is left as it was, whatever the input,
    the tick, the clock and the mode. *)
Theorem flight_frame_never_updates_daynight :
  forall (i : Aircraft.Input.t) (deltaTime utcHours : R) (mode : string)
         (w : World.t),
    Aircraft.State.isFlying (Aircraft.state (World.aircraft w)) = true ->
    Aircraft.group (World.aircraft w) <> None ->
    (exists e, snd (World.flightFrame i deltaTime utcHours mode w) = JS.Throw e)
    /\ World.earth (fst (World.flightFrame i deltaTime utcHours mode w))
       = World.earth w.
Proof.
  intros i deltaTime utcHours mode w Hfly Hgroup.
  unfold World.flightFrame, World.aircraftUpdate.
  set (a0 := World.aircraft (World.setInput i w)).
  assert (Hfly0 : Aircraft.State.isFlying (Aircraft.state a0) = true)
    by exact Hfly.
  assert (Hgroup0 : Aircraft.group a0 <> None) by exact Hgroup.
  destruct (AircraftMore.update_frame deltaTime a0)
    as (_ & _ & _ & Ff & _ & _ & _ & _ & Fg).
  cbv zeta in Ff, Fg.
  destruct (Aircraft.update deltaTime a0) as [a1 r] eqn:Hupd.
  cbn [fst] in Ff, Fg.
  destruct r as [| e]; [| split; [exists e; reflexivity | reflexivity]].
  unfold World.cameraUpdate. cbn [World.aircraft World.camera World.earth].
  destruct (Aircraft.group a1) as [g1 |] eqn:Eg1;
    [| exfalso; apply Fg; [assumption | reflexivity]].
  destruct (CameraMore.update_throws a1 g1 deltaTime
              (World.camera (World.setInput i w))) as [e He];
    [rewrite Ff; assumption | assumption |].
  destruct (Camera.update a1 deltaTime (World.camera (World.setInput i w)))
    as [c1 r1].
  cbn [snd] in He. subst r1. split; [exists e; reflexivity | reflexivity].
Qed.

Lemma flight_frame_never_updates_daynight_witness :
  World.earth
    (fst (World.flightFrame (Aircraft.Input.mk 0 0 0 0) 0.016 12 "auto"
            (World.mk Scenario.airborne Scenario.studio
                      (Earth.mk (Some (Earth.mkMesh 0))))))
  = Earth.mk (Some (Earth.mkMesh 0)).
Proof.
  apply (flight_frame_never_updates_daynight (Aircraft.Input.mk 0 0 0 0) 0.016 12
           "auto"
           (World.mk Scenario.airborne Scenario.studio
                     (Earth.mk (Some (Earth.mkMesh 0))))).
  - reflexivity.
  - discriminate.
Defined.

(** ** Controls *)

Module ControlsFacts.

Import Controls.

(** Every channel of the output between -1 and 1. *)
Lemma joystick_disc c :
  let o := output (updateJoystickPosition c) in
  Aircraft.Input.roll o * Aircraft.Input.roll o
  + Aircraft.Input.pitch o * Aircraft.Input.pitch o <= 1
  /\ Aircraft.Input.yaw o = Aircraft.Input.yaw (output c)
  /\ Aircraft.Input.throttle o = Aircraft.Input.throttle (output c).
Proof.
  cbv zeta. unfold updateJoystickPosition.
  set (dx := currentX (joystick c) - startX (joystick c)).
  set (dy := currentY (joystick c) - startY (joystick c)).
  assert (Hsq : 0 <= dx * dx + dy * dy) by nra.
  pose proof (sqrt_sqrt _ Hsq) as Hd. pose proof (sqrt_pos (dx * dx + dy * dy)) as Hd0.
  set (distance := sqrt (dx * dx + dy * dy)) in *.
  unfold JS.ltb.
  destruct (Rlt_dec 40 distance) as [Hfar | Hnear];
    cbn [output set_output Aircraft.Input.roll Aircraft.Input.pitch
         Aircraft.Input.yaw Aircraft.Input.throttle].
  - split; [| split; reflexivity].
    replace (dx / distance * 40 / 40 * (dx / distance * 40 / 40)
             + dy / distance * 40 / 40 * (dy / distance * 40 / 40))
      with ((dx * dx + dy * dy) / (distance * distance)) by (field; lra).
    rewrite <- Hd. right. field. lra.
  - split; [| split; reflexivity].
    apply Rnot_lt_le in Hnear.
    replace (dx / 40 * (dx / 40) + dy / 40 * (dy / 40))
      with ((dx * dx + dy * dy) / 1600) by field.
    rewrite <- Hd. assert (distance * distance <= 1600) by nra. lra.
Qed.

Lemma square_unit x y : x * x + y * y <= 1 -> -1 <= x <= 1.
Proof. intros H. split; nra. Qed.

Lemma handle_normalised e c :
  normalised (output c) -> normalised (output (handle e c)).
Proof.
  intros (Hp & Hr & Hy & Ht).
  destruct e as [code | code | | l t w h x y | x y | | | | | a b g | mobile mode];
    cbn [handle].
  - unfold keydown. cbn [fst output]. repeat split; lra.
  - unfold keyup. cbn [output]. repeat split; lra.
  - unfold blur. cbn [output]. repeat split; lra.
  - unfold handleJoystickStart.
    match goal with
    | |- normalised (output (updateJoystickPosition ?c0)) =>
        destruct (joystick_disc c0) as (Hd & Ey & Et); cbv zeta in *;
        set (o := output (updateJoystickPosition c0)) in *
    end.
    cbn [output] in Ey, Et. unfold normalised. rewrite Ey, Et.
    pose proof (square_unit _ _ Hd).
    assert (Hd' : Aircraft.Input.pitch o * Aircraft.Input.pitch o
                  + Aircraft.Input.roll o * Aircraft.Input.roll o <= 1) by lra.
    pose proof (square_unit _ _ Hd'). repeat split; lra.
  - unfold handleJoystickMove.
    destruct (active (joystick c)); cbn [negb]; [| repeat split; lra].
    match goal with
    | |- normalised (output (updateJoystickPosition ?c0)) =>
        destruct (joystick_disc c0) as (Hd & Ey & Et); cbv zeta in *;
        set (o := output (updateJoystickPosition c0)) in *
    end.
    cbn [output] in Ey, Et. unfold normalised. rewrite Ey, Et.
    pose proof (square_unit _ _ Hd).
    assert (Hd' : Aircraft.Input.pitch o * Aircraft.Input.pitch o
                  + Aircraft.Input.roll o * Aircraft.Input.roll o <= 1) by lra.
    pose proof (square_unit _ _ Hd'). repeat split; lra.
  - unfold handleJoystickEnd, normalised.
    cbn [output Aircraft.Input.pitch Aircraft.Input.roll Aircraft.Input.yaw
         Aircraft.Input.throttle]. repeat split; lra.
  - unfold setThrottle, normalised.
    cbn [output set_output Aircraft.Input.pitch Aircraft.Input.roll
         Aircraft.Input.yaw Aircraft.Input.throttle]. repeat split; lra.
  - unfold setThrottle, normalised.
    cbn [output set_output Aircraft.Input.pitch Aircraft.Input.roll
         Aircraft.Input.yaw Aircraft.Input.throttle]. repeat split; lra.
  - unfold setThrottle, normalised.
    cbn [output set_output Aircraft.Input.pitch Aircraft.Input.roll
         Aircraft.Input.yaw Aircraft.Input.throttle]. repeat split; lra.
  - unfold deviceorientation. cbn [output]. repeat split; lra.
  - unfold update, normalised.
    destruct mobile; cbn [negb].
    + destruct (String.eqb mode "gyroscope"); [| repeat split; lra].
      cbn [output set_output Aircraft.Input.pitch Aircraft.Input.roll
           Aircraft.Input.yaw Aircraft.Input.throttle].
      pose proof (AircraftFacts.clamp_range (beta (gyro c) / 30) (-1) 1 ltac:(lra)).
      pose proof (AircraftFacts.clamp_range (gamma (gyro c) / 30) (-1) 1 ltac:(lra)).
      repeat split; lra.
    + cbn [output set_output Aircraft.Input.pitch Aircraft.Input.roll
           Aircraft.Input.yaw Aircraft.Input.throttle].
      repeat match goal with
             | |- context [if ?b then _ else _] => destruct b
             end; repeat split; lra.
Qed.

Lemma run_normalised : forall events c,
  normalised (output c) -> normalised (output (run events c)).
Proof.
  induction events as [| e rest IH]; intros c H.
  - assumption.
  - cbn [run]. apply IH. apply handle_normalised. assumption.
Qed.

End ControlsFacts.

(** X20.  Wherever the finger is, the joystick hands out a roll and a pitch
    inside the unit disc, [roll^2 + pitch^2 <= 1], and so each between -1 and
    1; yaw and throttle are not touched. *)
Theorem joystick_output_in_unit_disc :
  forall c : Controls.t,
    let o := Controls.output (Controls.updateJoystickPosition c) in
    Aircraft.Input.roll o * Aircraft.Input.roll o
    + Aircraft.Input.pitch o * Aircraft.Input.pitch o <= 1
    /\ -1 <= Aircraft.Input.roll o <= 1
    /\ -1 <= Aircraft.Input.pitch o <= 1
    /\ Aircraft.Input.yaw o = Aircraft.Input.yaw (Controls.output c)
    /\ Aircraft.Input.throttle o = Aircraft.Input.throttle (Controls.output c).
Proof.
  intros c. cbv zeta.
  destruct (ControlsFacts.joystick_disc c) as (Hd & Ey & Et). cbv zeta in *.
  set (o := Controls.output (Controls.updateJoystickPosition c)) in *.
  split; [assumption |].
  split; [apply (ControlsFacts.square_unit _ _ Hd) |].
  split; [| split; assumption].
  apply (ControlsFacts.square_unit (Aircraft.Input.pitch o) (Aircraft.Input.roll o)).
  lra.
Qed.

(** X21.  Whatever keys, touches, button presses, orientation readings and
    frames come in, in whatever order, the control output has every channel
    between -1 and 1; [Aircraft.setInput] therefore stores it as it is. *)
Theorem controls_output_is_normalised :
  forall (events : list Controls.event) (w : World.t),
    let o := Controls.output (Controls.run events Controls.initial) in
    Controls.normalised o
    /\ Aircraft.input (World.aircraft (World.setInput o w)) = o.
Proof.
  intros events w. cbv zeta.
  assert (H : Controls.normalised
                (Controls.output (Controls.run events Controls.initial))).
  { apply ControlsFacts.run_normalised.
    unfold Controls.normalised, Controls.initial. cbn. repeat split; lra. }
  split; [assumption |].
  destruct H as (Hp & Hr & Hy & Ht).
  unfold World.setInput, Aircraft.setInput. cbn [World.aircraft Aircraft.input].
  rewrite !AircraftFacts.clamp_inside by assumption.
  destruct (Controls.output (Controls.run events Controls.initial)). reflexivity.
Qed.

Module KeyFacts.

Import Controls.

Lemma blur_releases code c : pressed code (blur c) = false.
Proof. reflexivity. Qed.

End KeyFacts.

(** X22.  Key state.  A key counts as pressed right after its [keydown] and
    as released right after its [keyup], whatever went before, and neither
    event changes how any other key counts.  Losing the focus releases every
    key: the next desktop frame after a [blur] puts all four channels to
    zero. *)
Theorem keys_are_tracked_and_released :
  forall (code other mode : string) (c : Controls.t),
    Controls.pressed code (fst (Controls.keydown code c)) = true
    /\ Controls.pressed code (Controls.keyup code c) = false
    /\ (other <> code ->
        Controls.pressed other (fst (Controls.keydown code c))
        = Controls.pressed other c
        /\ Controls.pressed other (Controls.keyup code c)
           = Controls.pressed other c)
    /\ Controls.output (Controls.update false mode (Controls.blur c))
       = Aircraft.Input.mk 0 0 0 0.
Proof.
  intros code other mode c.
  split; [| split; [| split]].
  - unfold Controls.pressed, Controls.keydown.
    cbn [fst Controls.keys JS.get]. rewrite String.eqb_refl. reflexivity.
  - unfold Controls.pressed, Controls.keyup.
    cbn [Controls.keys JS.get]. rewrite String.eqb_refl. reflexivity.
  - intros Hdiff. apply String.eqb_neq in Hdiff.
    unfold Controls.pressed, Controls.keydown, Controls.keyup.
    cbn [fst Controls.keys JS.get]. rewrite Hdiff. split; reflexivity.
  - unfold Controls.update. cbn [negb].
    rewrite !KeyFacts.blur_releases. reflexivity.
Qed.

Lemma keys_are_tracked_and_released_witness :
  Controls.pressed "KeyW"
    (fst (Controls.keydown "KeyQ" (fst (Controls.keydown "KeyW" Controls.initial))))
  = Controls.pressed "KeyW" (fst (Controls.keydown "KeyW" Controls.initial)).
Proof.
  apply (keys_are_tracked_and_released "KeyQ" "KeyW" "joystick"
           (fst (Controls.keydown "KeyW" Controls.initial))).
  discriminate.
Defined.

Module TargetFacts.

(** The auto target as a function of the hour, region by region. *)
Lemma auto_shape h :
  exists T, Earth.nightOpacity "auto" h = T
    /\ ((h < 6 /\ T = 1) \/ (6 <= h <= 7 /\ T = 7 - h) \/ (7 < h < 18 /\ T = 0)
        \/ (18 <= h <= 19 /\ T = h - 18) \/ (19 < h /\ T = 1)).
Proof.
  eexists. split; [reflexivity |].
  destruct (Rlt_dec h 6) as [H1 | H1].
  { left. split; [assumption |].
    apply DayNightFacts.auto_night; [discriminate | discriminate | lra]. }
  right. destruct (Rle_dec h 7) as [H2 | H2].
  { left. split; [lra |].
    rewrite DayNightFacts.auto_dawn; [lra | discriminate | discriminate | lra]. }
  right. destruct (Rlt_dec h 18) as [H3 | H3].
  { left. split; [lra |].
    apply DayNightFacts.auto_day; [discriminate | discriminate | lra]. }
  right. destruct (Rle_dec h 19) as [H4 | H4].
  { left. split; [lra |].
    apply DayNightFacts.auto_dusk; [discriminate | discriminate | lra]. }
  right. split; [lra |].
  apply DayNightFacts.auto_night; [discriminate | discriminate | lra].
Qed.

End TargetFacts.

(** X23.  In auto mode the target opacity has no jumps: two local hours
    that differ by [d] have targets that differ by at most [d]. *)
Theorem auto_target_has_no_jumps :
  forall h1 h2 : R,
    Rabs (Earth.nightOpacity "auto" h1 - Earth.nightOpacity "auto" h2)
    <= Rabs (h1 - h2).
Proof.
  intros h1 h2.
  destruct (TargetFacts.auto_shape h1) as (T1 & -> & C1).
  destruct (TargetFacts.auto_shape h2) as (T2 & -> & C2).
  unfold Rabs.
  destruct (Rcase_abs (T1 - T2)); destruct (Rcase_abs (h1 - h2));
    destruct C1 as [[? ?] | [[? ?] | [[? ?] | [[? ?] | [? ?]]]]];
    destruct C2 as [[? ?] | [[? ?] | [[? ?] | [[? ?] | [? ?]]]]];
    lra.
Qed.
